(** * Scheduled query rules (log-to-metric) resource of the azurerm provider

    A shallow embedding of
    [azurerm/internal/services/monitor/resource_arm_monitor_scheduled_query_rules_log.go]:
    the schema entries the handlers validate, the expander and the
    flatteners for the criteria, and the three lifecycle handlers
    (create/update, read, delete) written over an explicit state made of the
    resource data, the remote world behind the API client and the list of
    API calls issued so far. *)

From Stdlib Require Import ZArith List String Bool Lia.
From stdpp Require Import base option gmap strings list.
Import ListNotations.

Set Warnings "-register-all".

Local Open Scope Z_scope.
Local Open Scope string_scope.
Local Open Scope list_scope.

(** ** Go values held behind [interface{}] *)

(** The dynamic values the provider SDK hands to and takes from the
    resource: [d.Get] returns them, [d.Set] stores them.  A
    [map[string]interface{}] is kept as the list of its bindings (one per
    key, see [assign]); a [*schema.Set] is kept as the list its [List()]
    method enumerates. *)
Inductive value : Type :=
| VNil
| VBool (b : bool)
| VInt (n : Z)
| VString (s : string)
| VStrings (l : list string)
| VList (l : list value)
| VMap (m : list (string * value))
| VSet (l : list value).

(** [m[k]] on a [map[string]interface{}]: the nil interface when absent. *)
Fixpoint index (m : list (string * value)) (k : string) : value :=
  match m with
  | [] => VNil
  | (k', v) :: m' => if String.eqb k' k then v else index m' k
  end.

(** [m[k] = v]. *)
Fixpoint assign (m : list (string * value)) (k : string) (v : value)
  : list (string * value) :=
  match m with
  | [] => [(k, v)]
  | (k', v') :: m' =>
      if String.eqb k' k then (k, v) :: m' else (k', v') :: assign m' k v
  end.

(** ** Results of code that can panic *)

Inductive Result (A : Type) : Type :=
| Ok (a : A)
| Panic (msg : string).
Arguments Ok {A} a.
Arguments Panic {A} msg.

Definition Result_bind {A B} (r : Result A) (f : A -> Result B) : Result B :=
  match r with
  | Ok a => f a
  | Panic msg => Panic msg
  end.

#[export] Instance Result_ret : MRet Result := fun _ a => Ok a.
#[export] Instance Result_mbind : MBind Result := fun _ _ f r => Result_bind r f.

(** A [for _, x := range l] loop whose body updates the loop state [s]. *)
Fixpoint for_range {A S : Type} (body : S -> A -> Result S) (s : S)
  (l : list A) : Result S :=
  match l with
  | [] => Ok s
  | x :: l' => s' ← body s x; for_range body s' l'
  end.

Definition nil_dereference : string :=
  "runtime error: invalid memory address or nil pointer dereference".
Definition interface_conversion : string :=
  "interface conversion: interface {} has another dynamic type".

(** [*p] *)
Definition deref {A} (p : option A) : Result A :=
  match p with
  | Some a => Ok a
  | None => Panic nil_dereference
  end.

(** The type assertions [v.(string)], [v.([]interface{})],
    [v.(map[string]interface{})] and [v.( *schema.Set)]. *)
Definition assert_string (v : value) : Result string :=
  match v with VString s => Ok s | _ => Panic interface_conversion end.
Definition assert_list (v : value) : Result (list value) :=
  match v with VList l => Ok l | _ => Panic interface_conversion end.
Definition assert_map (v : value) : Result (list (string * value)) :=
  match v with VMap m => Ok m | _ => Panic interface_conversion end.
Definition assert_Set (v : value) : Result (list value) :=
  match v with VSet l => Ok l | _ => Panic interface_conversion end.

(** ** Errors *)

(** [fmt.Errorf] is kept as its format string and its arguments; an error
    that comes from a collaborator (the API client, the identifier parser,
    the field writer) is opaque; [tf.ImportAsExistsError], a helper outside
    the file, is kept as the call it is. *)
Inductive error : Type :=
| Errorf (format : string) (a : list fmtArg)
| ExternalError (msg : string)
| ImportAsExistsError (resourceName id : string)
with fmtArg : Type :=
| ArgString (s : string)
| ArgInt (n : Z)
| ArgInts (l : list Z)
| ArgStrings (l : list string)
| ArgError (e : error)
| ArgTypeOf (t : string).

(** ** The SDK's payload types, as far as this file reads or builds them *)

Module http.
Record Response := { StatusCode : Z }.
Definition StatusNotFound : Z := 404.
End http.

Module autorest.
(** [autorest.Response] embeds a [*http.Response]. *)
Record Response := { Response_ : option http.Response }.
End autorest.

Module insights.

Record Dimension := {
  Name : option string;
  Operator : option string;
  Values : option (list string)
}.

Record Criteria := {
  MetricName : option string;
  Dimensions : option (list Dimension)
}.

Inductive OdataType :=
| OdataTypeAction
| OdataTypeMicrosoftWindowsAzureManagementMonitoringAlertsModelsMicrosoftAppInsightsNexusDataContractsResourcesScheduledQueryRulesAlertingAction
| OdataTypeMicrosoftWindowsAzureManagementMonitoringAlertsModelsMicrosoftAppInsightsNexusDataContractsResourcesScheduledQueryRulesLogToMetricAction.

Record LogToMetricAction := {
  Criteria_ : option (list Criteria);
  OdataType_ : OdataType
}.

(** The dynamic value behind the [BasicAction] interface: nil, one of the
    three action structs (the fields of the first two are not read in
    this file), or the [*LogToMetricAction] the create path builds. *)
Inductive BasicAction :=
| NoAction
| Action_
| AlertingAction_
| LogToMetricAction_ (action : LogToMetricAction)
| LogToMetricActionPtr (action : LogToMetricAction).

(** What [%T] prints for it. *)
Definition TypeOf (a : BasicAction) : string :=
  match a with
  | NoAction => "<nil>"
  | Action_ => "insights.Action"
  | AlertingAction_ => "insights.AlertingAction"
  | LogToMetricAction_ _ => "insights.LogToMetricAction"
  | LogToMetricActionPtr _ => "*insights.LogToMetricAction"
  end.

Record Schedule := {
  FrequencyInMinutes : option Z;
  TimeWindowInMinutes : option Z
}.

Record Source := {
  Query : option string;
  AuthorizedResources : option (list string);
  DataSourceID : option string;
  QueryType : string
}.

(** The flag [insights.Enabled]: a string type with these two constants;
    like [ProvisioningState] and [QueryType] it is the empty string when
    the provider sent nothing. *)
Definition True_ : string := "true".
Definition False_ : string := "false".

Record LogSearchRule := {
  Description : option string;
  Enabled : string;
  LastUpdatedTime : option Z;
  ProvisioningState : string;
  Source_ : option Source;
  Schedule_ : option Schedule;
  Action : BasicAction
}.

(** [LogSearchRuleResource] embeds [autorest.Response] and a
    [*LogSearchRule]; the fields of the latter are reached through the
    embedded pointer. *)
Record LogSearchRuleResource := {
  Response : autorest.Response;
  LogSearchRule_ : option LogSearchRule;
  ID : option string;
  Location : option string;
  Tags : list (string * option string)
}.

End insights.

(** ** Helpers of [azurerm/utils] *)

(** Modelled from the spec: [utils.ExpandStringSlice] is not part of the
    file; it turns the [[]interface{}] of a string list field into a
    [*[]string], element by element. *)
Definition ExpandStringSlice (input : list value) : Result (list string) :=
  for_range (fun result item => s ← assert_string item; Ok (result ++ [s]))
    [] input.

(** Modelled from the spec: [utils.FlattenStringSlice] is not part of the
    file; it turns a [*[]string] into a [[]interface{}], empty for nil. *)
Definition FlattenStringSlice (input : option (list string)) : list value :=
  match input with
  | Some l => fold_left (fun result item => result ++ [VString item]) l []
  | None => []
  end.

(** ** Expander *)

Definition expandDimension (dimensions : list insights.Dimension)
  (dimension : value) : Result (list insights.Dimension) :=
  dVal ← assert_map dimension;
  name ← assert_string (index dVal "name");
  operator ← assert_string (index dVal "operator");
  values ← assert_list (index dVal "values");
  values ← ExpandStringSlice values;
  Ok (dimensions ++
        [ {| insights.Name := Some name;
             insights.Operator := Some operator;
             insights.Values := Some values |} ]).

Definition expandCriterion (criteria : list insights.Criteria) (item : value)
  : Result (list insights.Criteria) :=
  v ← assert_map item;
  set ← assert_Set (index v "dimension");
  dimensions ← for_range expandDimension [] set;
  metric_name ← assert_string (index v "metric_name");
  Ok (criteria ++
        [ {| insights.MetricName := Some metric_name;
             insights.Dimensions := Some dimensions |} ]).

Definition expandMonitorScheduledQueryRulesLogCriteria (input : list value)
  : Result (option (list insights.Criteria)) :=
  criteria ← for_range expandCriterion [] input;
  Ok (Some criteria).

(** ** Flatteners *)

(** The map one pass of the dimension loop builds. *)
Definition flattenDimensionItem (dimension : insights.Dimension) : value :=
  let v := [] in
  let v := match insights.Name dimension with
           | Some name => assign v "name" (VString name)
           | None => v
           end in
  let v := match insights.Operator dimension with
           | Some operator => assign v "operator" (VString operator)
           | None => v
           end in
  let v := match insights.Values dimension with
           | Some values => assign v "values" (VStrings values)
           | None => v
           end in
  VMap v.

Definition flattenAzureRmScheduledQueryRulesLogDimension
  (input : option (list insights.Dimension)) : list value :=
  match input with
  | Some l =>
      fold_left
        (fun result dimension => result ++ [flattenDimensionItem dimension])
        l []
  | None => []
  end.

(** The map one pass of the criteria loop builds; [*criteria.MetricName]
    is dereferenced as it is. *)
Definition flattenCriteriaItem (criteria : insights.Criteria) : Result value :=
  let v := [] in
  let v := assign v "dimension"
             (VList (flattenAzureRmScheduledQueryRulesLogDimension
                       (insights.Dimensions criteria))) in
  metric_name ← deref (insights.MetricName criteria);
  let v := assign v "metric_name" (VString metric_name) in
  Ok (VMap v).

Definition flattenAzureRmScheduledQueryRulesLogCriteria
  (input : option (list insights.Criteria)) : Result (list value) :=
  match input with
  | Some l =>
      for_range
        (fun result criteria =>
           v ← flattenCriteriaItem criteria; Ok (result ++ [v]))
        [] l
  | None => Ok []
  end.

(** ** Schema declaration *)

Module schema.

Inductive ValueType :=
| TypeBool | TypeInt | TypeFloat | TypeString | TypeList | TypeMap | TypeSet.

(** A validator returns its warnings and its errors. *)
Definition SchemaValidateFunc : Type :=
  value -> string -> list string * list error.

Record SchemaOf (E : Type) := {
  Type_ : ValueType;
  Optional : bool;
  Required : bool;
  ForceNew : bool;
  Computed : bool;
  Default : option value;
  Elem : option E;
  ValidateFunc : option SchemaValidateFunc
}.
Arguments Type_ {E} _.
Arguments Optional {E} _.
Arguments Required {E} _.
Arguments ForceNew {E} _.
Arguments Computed {E} _.
Arguments Default {E} _.
Arguments Elem {E} _.
Arguments ValidateFunc {E} _.

(** [Elem] is either a [*schema.Schema] or a [*schema.Resource] (the
    field map of the latter). *)
Inductive ElemT :=
| ElemSchema (s : SchemaOf ElemT)
| ElemResource (r : list (string * SchemaOf ElemT)).

Definition Schema : Type := SchemaOf ElemT.

End schema.

Module validation.

(** The SDK's [validation.IntInSlice]. *)
Definition IntInSlice (valid : list Z) : schema.SchemaValidateFunc :=
  fun i k =>
    match i with
    | VInt v =>
        if existsb (fun validInt => Z.eqb v validInt) valid then ([], [])
        else ([], [Errorf "expected %s to be one of %v, got %d"
                     [ArgString k; ArgInts valid; ArgInt v]])
    | _ => ([], [Errorf "expected type of %s to be an integer" [ArgString k]])
    end.

(** The SDK's [validation.StringInSlice], for [ignoreCase = false], the
    only way this file calls it. *)
Definition StringInSlice (valid : list string) (ignoreCase : bool)
  : schema.SchemaValidateFunc :=
  fun i k =>
    match i with
    | VString v =>
        if existsb (fun str => String.eqb v str) valid then ([], [])
        else ([], [Errorf "expected %s to be one of %v, got %s"
                     [ArgString k; ArgStrings valid; ArgString v]])
    | _ => ([], [Errorf "expected type of %s to be string" [ArgString k]])
    end.

End validation.

(** The [criteria] entry of the resource's schema map, inside out: the
    fields of a [dimension] block, the fields of a [criteria] block, the
    entry itself. *)
Definition dimensionResource : list (string * schema.Schema) :=
  [ ("name",
      {| schema.Type_ := schema.TypeString;
         schema.Optional := false;
         schema.Required := true;
         schema.ForceNew := false;
         schema.Computed := false;
         schema.Default := None;
         schema.Elem := None;
         schema.ValidateFunc := None |});
    ("operator",
      {| schema.Type_ := schema.TypeString;
         schema.Optional := false;
         schema.Required := true;
         schema.ForceNew := false;
         schema.Computed := false;
         schema.Default := None;
         schema.Elem := None;
         schema.ValidateFunc :=
           Some (validation.StringInSlice ["Include"] false) |});
    ("values",
      {| schema.Type_ := schema.TypeList;
         schema.Optional := false;
         schema.Required := true;
         schema.ForceNew := false;
         schema.Computed := false;
         schema.Default := None;
         schema.Elem := Some (schema.ElemSchema
           {| schema.Type_ := schema.TypeString;
              schema.Optional := false;
              schema.Required := false;
              schema.ForceNew := false;
              schema.Computed := false;
              schema.Default := None;
              schema.Elem := None;
              schema.ValidateFunc := None |});
         schema.ValidateFunc := None |}) ].

Definition criteriaResource : list (string * schema.Schema) :=
  [ ("dimension",
      {| schema.Type_ := schema.TypeSet;
         schema.Optional := false;
         schema.Required := true;
         schema.ForceNew := false;
         schema.Computed := false;
         schema.Default := None;
         schema.Elem := Some (schema.ElemResource dimensionResource);
         schema.ValidateFunc := None |});
    ("metric_name",
      {| schema.Type_ := schema.TypeString;
         schema.Optional := false;
         schema.Required := true;
         schema.ForceNew := false;
         schema.Computed := false;
         schema.Default := None;
         schema.Elem := None;
         schema.ValidateFunc := None |}) ].

Definition criteriaSchema : schema.Schema :=
  {| schema.Type_ := schema.TypeSet;
     schema.Optional := true;
     schema.Required := false;
     schema.ForceNew := false;
     schema.Computed := false;
     schema.Default := None;
     schema.Elem := Some (schema.ElemResource criteriaResource);
     schema.ValidateFunc := None |}.

(** The [severity] entry of the resource's schema map. *)
Definition severitySchema : schema.Schema :=
  {| schema.Type_ := schema.TypeInt;
     schema.Optional := true;
     schema.Required := false;
     schema.ForceNew := false;
     schema.Computed := false;
     schema.Default := None;
     schema.Elem := None;
     schema.ValidateFunc := Some (validation.IntInSlice [0; 1; 2; 3; 4]) |}.

(** *** Schema validation

    What the host framework checks before a handler runs: every value has
    the declared type, every required field of a nested block is there, and
    the field's [ValidateFunc], when it has one, reports no error. *)

Definition runValidateFunc (s : schema.Schema) (k : string) (v : value)
  : list error :=
  match schema.ValidateFunc s with
  | Some f => snd (f v k)
  | None => []
  end.

Definition noErrors (es : list error) : bool :=
  match es with [] => true | _ => false end.

Definition validateWith (rec : schema.ElemT -> string -> value -> bool)
  (s : schema.Schema) (k : string) (v : value) : bool :=
  match schema.Type_ s, v with
  | schema.TypeBool, VBool _
  | schema.TypeInt, VInt _
  | schema.TypeString, VString _ => noErrors (runValidateFunc s k v)
  | schema.TypeList, VList l
  | schema.TypeSet, VSet l =>
      match schema.Elem s with
      | Some e => forallb (rec e k) l
      | None => true
      end && noErrors (runValidateFunc s k v)
  | schema.TypeMap, VMap m =>
      match schema.Elem s with
      | Some e => forallb (fun kv => rec e k (snd kv)) m
      | None => true
      end && noErrors (runValidateFunc s k v)
  | _, _ => false
  end.

Definition absent (v : value) : bool :=
  match v with VNil => true | _ => false end.

Fixpoint validateElem (e : schema.ElemT) (k : string) (v : value)
  {struct e} : bool :=
  match e with
  | schema.ElemSchema s => validateWith validateElem s k v
  | schema.ElemResource r =>
      match v with
      | VMap m =>
          (fix fields (r : list (string * schema.Schema)) : bool :=
             match r with
             | [] => true
             | (key, s) :: r' =>
                 (if absent (index m key) then negb (schema.Required s)
                  else validateWith validateElem s key (index m key))
                 && fields r'
             end) r
      | _ => false
      end
  end.

Definition validate (s : schema.Schema) (k : string) (v : value) : bool :=
  validateElem (schema.ElemSchema s) k v.

(** ** Resource data *)

Module ResourceData.

(** [schema.ResourceData]: the identifier, whether the resource is being
    created, and the field values ([d.Get] reads them, [d.Set] writes
    them). *)
Record t := {
  id : string;
  isNewResource : bool;
  fields : gmap string value
}.

(** What [d.Get] returns for a top-level field nothing was stored for:
    the declared [Default], else the zero value of the declared [Type]
    ([resource_group_name], [location] and [tags] are declared by helpers
    outside the file and read here as a string, a string and a map). *)
Definition unset : list (string * value) :=
  [ ("name", VString "");
    ("resource_group_name", VString "");
    ("location", VString "");
    ("authorized_resources", VSet []);
    ("azns_action", VSet []);
    ("criteria", VSet []);
    ("data_source_id", VString "");
    ("description", VString "");
    ("enabled", VBool true);
    ("frequency", VInt 0);
    ("last_updated_time", VString "");
    ("provisioning_state", VString "");
    ("query", VString "");
    ("query_type", VString "ResultCount");
    ("severity", VInt 0);
    ("throttling", VInt 0);
    ("time_window", VInt 0);
    ("trigger", VSet []);
    ("tags", VMap []) ].

Definition Get (d : t) (key : string) : value :=
  match fields d !! key with
  | Some v => v
  | None => index unset key
  end.

Definition Id (d : t) : string := id d.

Definition SetId (d : t) (v : string) : t :=
  {| id := v; isNewResource := isNewResource d; fields := fields d |}.

Definition IsNewResource (d : t) : bool := isNewResource d.

(** What the SDK's field writer records for the value [d.Set] hands it:
    the value itself, and for a nil handed for a field declared with
    [Type] string the empty string, which is what [d.Get] and the state
    then give for the field. *)
Definition recorded (key : string) (v : value) : value :=
  match v, index unset key with
  | VNil, VString _ => VString ""
  | _, _ => v
  end.

(** The write of [d.Set], once the SDK's field writer has accepted the
    value. *)
Definition store (d : t) (key : string) (v : value) : t :=
  {| id := id d; isNewResource := isNewResource d;
     fields := <[key := recorded key v]> (fields d) |}.

End ResourceData.

(** [d.Set] dereferences a pointer it is given; a nil pointer is handed to
    the field writer as nil. *)
Definition pointer {A} (f : A -> value) (p : option A) : value :=
  match p with
  | Some a => f a
  | None => VNil
  end.

(** ** Helpers outside the file *)

Module azure.
Record ResourceID := {
  SubscriptionID : string;
  ResourceGroup : string;
  Provider : string;
  Path : gmap string string
}.

(** [id.Path[k]]: the empty string when the key is absent. *)
Definition PathAt (id : ResourceID) (k : string) : string :=
  match Path id !! k with
  | Some v => v
  | None => ""
  end.
End azure.

Module utils.
(** Modelled from the spec: [utils.ResponseWasNotFound] is not part of the
    file; the provider reports NotFound by the HTTP status 404 of the
    response, and a response that never arrived is not a NotFound. *)
Definition ResponseWasNotFound (resp : autorest.Response) : bool :=
  match autorest.Response_ resp with
  | Some r => Z.eqb (http.StatusCode r) http.StatusNotFound
  | None => false
  end.
End utils.

Module response.
(** [response.WasNotFound] of go-azure-helpers: the same test, on a
    [*http.Response]. *)
Definition WasNotFound (resp : option http.Response) : bool :=
  match resp with
  | Some r => Z.eqb (http.StatusCode r) http.StatusNotFound
  | None => false
  end.
End response.

Module tags.
(** Modelled from the spec: [tags.Flatten] is not part of the file; it
    keeps the tags that have a value. *)
Definition Flatten (tagMap : list (string * option string))
  : list (string * value) :=
  fold_left
    (fun output kv =>
       match snd kv with
       | Some v => assign output (fst kv) (VString v)
       | None => output
       end) tagMap [].
End tags.

(** ** The API client and the other collaborators *)

Inductive Call :=
| CallGet (resourceGroup name : string)
| CallCreateOrUpdate (resourceGroup name : string)
    (parameters : insights.LogSearchRuleResource)
| CallDelete (resourceGroup name : string).

(** What a handler is given through [meta] and through the packages the
    file imports; [W] is the state of the remote side, which every client
    call may read and change. *)
Record Meta (W : Type) := {
  ShouldResourcesBeImported : bool;
  ParseAzureResourceID : string -> error + azure.ResourceID;
  NormalizeLocation : value -> string;
  expandMonitorScheduledQueryRulesSource :
    ResourceData.t -> option insights.Source;
  expandMonitorScheduledQueryRulesSchedule :
    ResourceData.t -> option insights.Schedule;
  tagsExpand : list (string * value) -> list (string * option string);
  Format : Z -> string -> string;
  (** the error of the SDK's field writer for a key and a value, if any *)
  WriteField : string -> value -> option error;
  Get : string -> string -> W -> insights.LogSearchRuleResource * option error * W;
  CreateOrUpdate :
    string -> string -> insights.LogSearchRuleResource -> W ->
    insights.LogSearchRuleResource * option error * W;
  Delete : string -> string -> W -> autorest.Response * option error * W
}.
Arguments ShouldResourcesBeImported {W} _.
Arguments ParseAzureResourceID {W} _ _.
Arguments NormalizeLocation {W} _ _.
Arguments expandMonitorScheduledQueryRulesSource {W} _ _.
Arguments expandMonitorScheduledQueryRulesSchedule {W} _ _.
Arguments tagsExpand {W} _ _.
Arguments Format {W} _ _ _.
Arguments WriteField {W} _ _ _.
Arguments Get {W} _ _ _ _.
Arguments CreateOrUpdate {W} _ _ _ _ _.
Arguments Delete {W} _ _ _ _.

Definition RFC3339 : string := "2006-01-02T15:04:05Z07:00".

(** ** The handler monad *)

(** How a handler ends: it returns its [error] (nil for success) or it
    panics. *)
Inductive Outcome :=
| Returned (err : option error)
| Panicked (msg : string).

Record St (W : Type) := {
  d : ResourceData.t;
  world : W;
  calls : list Call
}.
Arguments d {W} _.
Arguments world {W} _.
Arguments calls {W} _.

(** A computation either goes on with a value or leaves the handler. *)
Definition M (W A : Type) : Type := St W -> (A + Outcome) * St W.

Definition M_bind {W A B} (m : M W A) (f : A -> M W B) : M W B :=
  fun s =>
    match m s with
    | (inl a, s') => f a s'
    | (inr o, s') => (inr o, s')
    end.

#[export] Instance M_ret {W} : MRet (M W) := fun _ a s => (inl a, s).
#[export] Instance M_mbind {W} : MBind (M W) := fun _ _ f m => M_bind m f.

(** [return err] *)
Definition Return {W A} (err : option error) : M W A :=
  fun s => (inr (Returned err), s).

(** A panicking expression takes the handler down with it. *)
Definition lift {W A} (r : Result A) : M W A :=
  fun s =>
    match r with
    | Ok a => (inl a, s)
    | Panic msg => (inr (Panicked msg), s)
    end.

Definition getData {W} : M W ResourceData.t := fun s => (inl (d s), s).

Definition SetId {W} (v : string) : M W unit :=
  fun s => (inl tt, {| d := ResourceData.SetId (d s) v;
                       world := world s; calls := calls s |}).

(** [if cond { body }] *)
Definition when {W} (cond : bool) (body : M W unit) : M W unit :=
  if cond then body else mret tt.

(** How a handler ends when its body ends with [r]. *)
Definition outcome (r : option error + Outcome) : Outcome :=
  match r with
  | inl err => Returned err
  | inr o => o
  end.

(** The outcome of a handler whose body is [m], and the state it leaves. *)
Definition run {W} (m : M W (option error)) (s : St W) : Outcome * St W :=
  match m s with
  | (inl err, s') => (Returned err, s')
  | (inr o, s') => (o, s')
  end.

Definition assert_bool (v : value) : Result bool :=
  match v with VBool b => Ok b | _ => Panic interface_conversion end.

(** [expandMonitorScheduledQueryRulesLogToMetricAction] *)
Definition expandMonitorScheduledQueryRulesLogToMetricAction
  (d : ResourceData.t) : Result insights.LogToMetricAction :=
  criteriaRaw ← assert_Set (ResourceData.Get d "criteria");
  criteria ← expandMonitorScheduledQueryRulesLogCriteria criteriaRaw;
  Ok {| insights.Criteria_ := criteria;
        insights.OdataType_ :=
          insights.OdataTypeMicrosoftWindowsAzureManagementMonitoringAlertsModelsMicrosoftAppInsightsNexusDataContractsResourcesScheduledQueryRulesLogToMetricAction |}.

(** ** Lifecycle handlers *)

Section Handlers.

Context {W : Type} (meta : Meta W).

Definition record (c : Call) (w : W) (s : St W) : St W :=
  {| d := d s; world := w; calls := calls s ++ [c] |}.

Definition clientGet (resourceGroup name : string)
  : M W (insights.LogSearchRuleResource * option error) :=
  fun s =>
    let '(resp, err, w) := Get meta resourceGroup name (world s) in
    (inl (resp, err), record (CallGet resourceGroup name) w s).

Definition clientCreateOrUpdate (resourceGroup name : string)
  (parameters : insights.LogSearchRuleResource)
  : M W (insights.LogSearchRuleResource * option error) :=
  fun s =>
    let '(resp, err, w) :=
      CreateOrUpdate meta resourceGroup name parameters (world s) in
    (inl (resp, err),
     record (CallCreateOrUpdate resourceGroup name parameters) w s).

Definition clientDelete (resourceGroup name : string)
  : M W (autorest.Response * option error) :=
  fun s =>
    let '(resp, err, w) := Delete meta resourceGroup name (world s) in
    (inl (resp, err), record (CallDelete resourceGroup name) w s).

(** [d.Set(key, v)]: the value is stored unless the field writer
    refuses it. *)
Definition Set_ (key : string) (v : value) : M W (option error) :=
  fun s =>
    match WriteField meta key v with
    | Some err => (inl (Some err), s)
    | None =>
        (inl None, {| d := ResourceData.store (d s) key v;
                      world := world s; calls := calls s |})
    end.

(** Modelled from the spec: [tags.FlattenAndSet] is not part of the file;
    it stores the flattened tags under [tags]. *)
Definition tagsFlattenAndSet (tagMap : list (string * option string))
  : M W (option error) :=
  err ← Set_ "tags" (VMap (tags.Flatten tagMap));
  match err with
  | Some err => mret (Some (Errorf "Error setting `tags`: %s" [ArgError err]))
  | None => mret None
  end.

(** The second half of the read handler, from [d.Set("name", name)] to
    its end: what it does with the rule [client.Get] returned. *)
Definition setFromResponse (name resourceGroup : string)
  (resp : insights.LogSearchRuleResource) : M W (option error) :=
  Set_ "name" (VString name);;
  Set_ "resource_group_name" (VString resourceGroup);;
  match insights.Location resp with
  | Some location =>
      Set_ "location"
        (VString (NormalizeLocation meta (VString location)));;
      mret tt
  | None => mret tt
  end;;
  rule ← lift (deref (insights.LogSearchRule_ resp));
  match insights.LastUpdatedTime rule with
  | Some lastUpdated =>
      Set_ "last_updated_time"
        (VString (Format meta lastUpdated RFC3339));;
      mret tt
  | None => mret tt
  end;;
  Set_ "provisioning_state" (VString (insights.ProvisioningState rule));;
  (if String.eqb (insights.Enabled rule) insights.True_
   then Set_ "enabled" (VBool true)
   else Set_ "enabled" (VBool false));;
  Set_ "description" (pointer VString (insights.Description rule));;
  match insights.Action rule with
  | insights.LogToMetricAction_ action =>
      criteria ← lift (flattenAzureRmScheduledQueryRulesLogCriteria
                         (insights.Criteria_ action));
      err ← Set_ "criteria" (VList criteria);
      match err with
      | Some err =>
          Return (Some (Errorf "Error setting `criteria`: %+v"
                          [ArgError err]))
      | None => mret tt
      end
  | _ =>
      Return (Some (Errorf
        "Unknown action type in scheduled query rule %q (resource group %q): %T"
        [ArgString name; ArgString resourceGroup;
         ArgTypeOf (insights.TypeOf (insights.Action rule))]))
  end;;
  match insights.Schedule_ rule with
  | Some schedule =>
      when (bool_decide (insights.FrequencyInMinutes schedule ≠ None))
        (Set_ "frequency"
           (pointer VInt (insights.FrequencyInMinutes schedule));;
         mret tt);;
      when (bool_decide (insights.TimeWindowInMinutes schedule ≠ None))
        (Set_ "time_window"
           (pointer VInt (insights.TimeWindowInMinutes schedule));;
         mret tt)
  | None => mret tt
  end;;
  match insights.Source_ rule with
  | Some source =>
      when (bool_decide (insights.AuthorizedResources source ≠ None))
        (Set_ "authorized_resources"
           (VList (FlattenStringSlice
                     (insights.AuthorizedResources source)));;
         mret tt);;
      when (bool_decide (insights.DataSourceID source ≠ None))
        (Set_ "data_source_id"
           (pointer VString (insights.DataSourceID source));;
         mret tt);;
      when (bool_decide (insights.Query source ≠ None))
        (Set_ "query" (pointer VString (insights.Query source));;
         mret tt);;
      Set_ "query_type" (VString (insights.QueryType source));;
      mret tt
  | None => mret tt
  end;;
  tagsFlattenAndSet (insights.Tags resp).

Definition resourceArmMonitorScheduledQueryRulesLogRead
  : M W (option error) :=
  d0 ← getData;
  match ParseAzureResourceID meta (ResourceData.Id d0) with
  | inl err => Return (Some err)
  | inr id =>
      let resourceGroup := azure.ResourceGroup id in
      let name := azure.PathAt id "scheduledqueryrules" in
      '(resp, err) ← clientGet resourceGroup name;
      match err with
      | Some err =>
          if utils.ResponseWasNotFound (insights.Response resp) then
            SetId "";; Return None
          else
            Return (Some (Errorf
              "Error getting scheduled query rule %q (resource group %q): %+v"
              [ArgString name; ArgString resourceGroup; ArgError err]))
      | None => mret tt
      end;;
      setFromResponse name resourceGroup resp
  end.

(** The [parameters] of the create/update call, from the values read
    from the resource data. *)
Definition parametersOf (d0 : ResourceData.t) (description : string)
  (enabledRaw : bool) (action : insights.LogToMetricAction)
  (t : list (string * value)) : insights.LogSearchRuleResource :=
  let enabled := if negb enabledRaw then insights.False_ else insights.True_ in
  let location := NormalizeLocation meta (ResourceData.Get d0 "location") in
  let source := expandMonitorScheduledQueryRulesSource meta d0 in
  let schedule := expandMonitorScheduledQueryRulesSchedule meta d0 in
  let expandedTags := tagsExpand meta t in
  {| insights.Response := {| autorest.Response_ := None |};
     insights.ID := None;
     insights.Location := Some location;
     insights.LogSearchRule_ := Some
       {| insights.Description := Some description;
          insights.Enabled := enabled;
          insights.LastUpdatedTime := None;
          insights.ProvisioningState := "";
          insights.Source_ := source;
          insights.Schedule_ := schedule;
          insights.Action := insights.LogToMetricActionPtr action |};
     insights.Tags := expandedTags |}.

(** The second half of the create/update handler, from
    [d.Get("description")] to its end. *)
Definition createOrUpdateAndRead (d0 : ResourceData.t)
  (name resourceGroup : string) : M W (option error) :=
  description ← lift (assert_string (ResourceData.Get d0 "description"));
  enabledRaw ← lift (assert_bool (ResourceData.Get d0 "enabled"));
  action ← lift (expandMonitorScheduledQueryRulesLogToMetricAction d0);
  t ← lift (assert_map (ResourceData.Get d0 "tags"));
  let parameters := parametersOf d0 description enabledRaw action t in
  '(_, err) ← clientCreateOrUpdate resourceGroup name parameters;
  match err with
  | Some err =>
      Return (Some (Errorf
        "Error creating or updating scheduled query rule %q (resource group %q): %+v"
        [ArgString name; ArgString resourceGroup; ArgError err]))
  | None => mret tt
  end;;
  '(read, err) ← clientGet resourceGroup name;
  match err with
  | Some err => Return (Some err)
  | None => mret tt
  end;;
  match insights.ID read with
  | None =>
      Return (Some (Errorf
        "Scheduled query rule %q (resource group %q) ID is empty"
        [ArgString name; ArgString resourceGroup]))
  | Some readID => SetId readID
  end;;
  resourceArmMonitorScheduledQueryRulesLogRead.

Definition resourceArmMonitorScheduledQueryRulesLogCreateUpdate
  : M W (option error) :=
  d0 ← getData;
  name ← lift (assert_string (ResourceData.Get d0 "name"));
  resourceGroup ←
    lift (assert_string (ResourceData.Get d0 "resource_group_name"));
  when (ShouldResourcesBeImported meta && ResourceData.IsNewResource d0)
    ('(existing, err) ← clientGet resourceGroup name;
     match err with
     | Some err =>
         if negb (utils.ResponseWasNotFound (insights.Response existing))
         then
           Return (Some (Errorf
             "Error checking for presence of existing Monitor Scheduled Query Rules %q (Resource Group %q): %s"
             [ArgString name; ArgString resourceGroup; ArgError err]))
         else mret tt
     | None => mret tt
     end;;
     match insights.ID existing with
     | Some existingID =>
         if negb (String.eqb existingID "") then
           Return (Some (ImportAsExistsError
                           "azurerm_monitor_scheduled_query_rules_log"
                           existingID))
         else mret tt
     | None => mret tt
     end);;
  createOrUpdateAndRead d0 name resourceGroup.

Definition resourceArmMonitorScheduledQueryRulesLogDelete
  : M W (option error) :=
  d0 ← getData;
  match ParseAzureResourceID meta (ResourceData.Id d0) with
  | inl err => Return (Some err)
  | inr id =>
      let resourceGroup := azure.ResourceGroup id in
      let name := azure.PathAt id "scheduledqueryrules" in
      '(resp, err) ← clientDelete resourceGroup name;
      match err with
      | Some err =>
          if negb (response.WasNotFound (autorest.Response_ resp)) then
            Return (Some (Errorf
              "Error deleting scheduled query rule %q (resource group %q): %+v"
              [ArgString name; ArgString resourceGroup; ArgError err]))
          else mret tt
      | None => mret tt
      end;;
      mret None
  end.

End Handlers.

(** ** Create, in the words of the specification *)

(** "Invokes the provider create/update call, then performs Read": the
    call is issued from the state [checked]; when it fails, or when the
    [Get] that follows fails or returns no ID, that is what the handler
    returns; otherwise the ID is stored and the read handler runs. *)
Definition createThenRead {W} (meta : Meta W) (name resourceGroup : string)
  (parameters : insights.LogSearchRuleResource) (checked : St W)
  : Outcome * St W :=
  let '(_, err, w) :=
    CreateOrUpdate meta resourceGroup name parameters (world checked) in
  let called :=
    record (CallCreateOrUpdate resourceGroup name parameters) w checked in
  match err with
  | Some err =>
      (Returned (Some (Errorf
         "Error creating or updating scheduled query rule %q (resource group %q): %+v"
         [ArgString name; ArgString resourceGroup; ArgError err])), called)
  | None =>
      let '(read, err, w) := Get meta resourceGroup name (world called) in
      let got := record (CallGet resourceGroup name) w called in
      match err, insights.ID read with
      | Some err, _ => (Returned (Some err), got)
      | None, None =>
          (Returned (Some (Errorf
             "Scheduled query rule %q (resource group %q) ID is empty"
             [ArgString name; ArgString resourceGroup])), got)
      | None, Some readID =>
          run (resourceArmMonitorScheduledQueryRulesLogRead meta)
            {| d := ResourceData.SetId (d got) readID;
               world := world got; calls := calls got |}
      end
  end.

(** The presence check of a new resource under import protection: did
    [Get] fail with something else than NotFound, and did it return a
    non-empty ID. *)
Definition checkFailed (existing : insights.LogSearchRuleResource)
  (err : option error) : bool :=
  match err with
  | Some _ => negb (utils.ResponseWasNotFound (insights.Response existing))
  | None => false
  end.

Definition alreadyExists (existing : insights.LogSearchRuleResource) : bool :=
  match insights.ID existing with
  | Some existingID => negb (String.eqb existingID "")
  | None => false
  end.

(** ** What the read handler is given and what it may write *)

(** Whether the payload holds the field the handler writes under [key]
    only after a nil check. *)
Definition payloadHas (resp : insights.LogSearchRuleResource) (key : string)
  : bool :=
  let rule := insights.LogSearchRule_ resp in
  let schedule := rule ≫= insights.Schedule_ in
  let source := rule ≫= insights.Source_ in
  if String.eqb key "location" then
    bool_decide (is_Some (insights.Location resp))
  else if String.eqb key "last_updated_time" then
    bool_decide (is_Some (rule ≫= insights.LastUpdatedTime))
  else if String.eqb key "frequency" then
    bool_decide (is_Some (schedule ≫= insights.FrequencyInMinutes))
  else if String.eqb key "time_window" then
    bool_decide (is_Some (schedule ≫= insights.TimeWindowInMinutes))
  else if String.eqb key "authorized_resources" then
    bool_decide (is_Some (source ≫= insights.AuthorizedResources))
  else if String.eqb key "data_source_id" then
    bool_decide (is_Some (source ≫= insights.DataSourceID))
  else if String.eqb key "query" then
    bool_decide (is_Some (source ≫= insights.Query))
  else true.

(** The fields written only after a nil check. *)
Definition guarded : list string :=
  [ "location"; "last_updated_time"; "frequency"; "time_window";
    "authorized_resources"; "data_source_id"; "query" ].

(** ** Properties of computations *)

Section Computations.

Context {W A : Type}.

(** [m] never leaves the handler. *)
Definition proceeds (m : M W A) : Prop :=
  forall s, exists a, (m s).1 = inl a.

(** [m] keeps [I], however it ends. *)
Definition keeps (I : St W -> Prop) (m : M W A) : Prop :=
  forall s, I s -> I (m s).2.

(** [m] does not panic. *)
Definition safe (m : M W A) : Prop :=
  forall s msg, (m s).1 <> inr (Panicked msg).

End Computations.

(** The field [key] reads [v], and the remote side and the calls are
    [w] and [cs]. *)
Definition holds {W} (key : string) (v : option value) (w : W)
  (cs : list Call) (s : St W) : Prop :=
  ResourceData.fields (d s) !! key = v /\ world s = w /\ calls s = cs.

(** What the handler stores under a guarded [key] when the payload holds
    the field. *)
Definition payloadValue {W} (meta : Meta W)
  (resp : insights.LogSearchRuleResource) (key : string) : option value :=
  let rule := insights.LogSearchRule_ resp in
  let schedule := rule ≫= insights.Schedule_ in
  let source := rule ≫= insights.Source_ in
  if String.eqb key "location" then
    (fun location => VString (NormalizeLocation meta (VString location)))
      <$> insights.Location resp
  else if String.eqb key "last_updated_time" then
    (fun lastUpdated => VString (Format meta lastUpdated RFC3339))
      <$> (rule ≫= insights.LastUpdatedTime)
  else if String.eqb key "frequency" then
    VInt <$> (schedule ≫= insights.FrequencyInMinutes)
  else if String.eqb key "time_window" then
    VInt <$> (schedule ≫= insights.TimeWindowInMinutes)
  else if String.eqb key "authorized_resources" then
    (fun resources => VList (FlattenStringSlice (Some resources)))
      <$> (source ≫= insights.AuthorizedResources)
  else if String.eqb key "data_source_id" then
    VString <$> (source ≫= insights.DataSourceID)
  else if String.eqb key "query" then
    VString <$> (source ≫= insights.Query)
  else None.

(** The identifier and the new-resource mark of the resource data are [i]
    and [n], and the remote side and the calls are [w] and [cs]. *)
Definition identifiedBy {W} (i : string) (n : bool) (w : W)
  (cs : list Call) (s : St W) : Prop :=
  ResourceData.id (d s) = i /\ ResourceData.isNewResource (d s) = n
  /\ world s = w /\ calls s = cs.

(** The fields the read handler writes after the criteria. *)
Definition afterCriteria : list string :=
  [ "frequency"; "time_window"; "authorized_resources"; "data_source_id";
    "query"; "query_type"; "tags" ].

(** A criterion that has its metric name. *)
Definition named (criteria : insights.Criteria) : Prop :=
  is_Some (insights.MetricName criteria).

(** ** Criteria as sets of entries *)

(** A criteria collection is read, on either side of the round trip, as a
    set of entries: a metric name with a set of dimensions, each a name, an
    operator and the list of its values.  The reading accepts what the
    field writer accepts: a list or a set for a collection, a
    [[]interface{}] of strings or a [[]string] for the values. *)

Definition DimensionEntry : Type := string * string * list string.

Definition stringOf (v : value) : option string :=
  match v with VString s => Some s | _ => None end.

Definition stringsOf (v : value) : option (list string) :=
  match v with
  | VStrings l => Some l
  | VList l => mapM stringOf l
  | _ => None
  end.

Definition elementsOf (v : value) : option (list value) :=
  match v with
  | VList l | VSet l => Some l
  | _ => None
  end.

Definition readDimension (v : value) : option DimensionEntry :=
  match v with
  | VMap m =>
      name ← stringOf (index m "name");
      operator ← stringOf (index m "operator");
      values ← stringsOf (index m "values");
      Some (name, operator, values)
  | _ => None
  end.

Definition readDimensions (v : value) : option (list DimensionEntry) :=
  l ← elementsOf v; mapM readDimension l.

Definition readCriterion (v : value)
  : option (string * list DimensionEntry) :=
  match v with
  | VMap m =>
      metric_name ← stringOf (index m "metric_name");
      dimension ← readDimensions (index m "dimension");
      Some (metric_name, dimension)
  | _ => None
  end.

Definition readCriteria (v : value)
  : option (list (string * list DimensionEntry)) :=
  l ← elementsOf v; mapM readCriterion l.

Definition CriterionEntry : Type := string * gset DimensionEntry.

Definition entryOf (c : string * list DimensionEntry) : CriterionEntry :=
  (fst c, list_to_set (snd c)).

(** The set of entries of a criteria collection, when it has the shape of
    one. *)
Definition criteriaSet (v : value) : option (gset CriterionEntry) :=
  l ← readCriteria v; Some (list_to_set (entryOf <$> l)).

(** The payload an entry expands to. *)
Definition dimensionOf (e : DimensionEntry) : insights.Dimension :=
  {| insights.Name := Some e.1.1;
     insights.Operator := Some e.1.2;
     insights.Values := Some e.2 |}.

Definition criterionOf (c : string * list DimensionEntry)
  : insights.Criteria :=
  {| insights.MetricName := Some c.1;
     insights.Dimensions := Some (dimensionOf <$> c.2) |}.

(** ** Configurations the create/update handler is run on *)

Definition isString (v : value) : bool :=
  match v with VString _ => true | _ => false end.
Definition isBool (v : value) : bool :=
  match v with VBool _ => true | _ => false end.
Definition isMap (v : value) : bool :=
  match v with VMap _ => true | _ => false end.

(** The fields the handler reads have their declared types, and the
    criteria pass schema validation. *)
Definition configured (d : ResourceData.t) : bool :=
  isString (ResourceData.Get d "name")
  && isString (ResourceData.Get d "resource_group_name")
  && isString (ResourceData.Get d "description")
  && isBool (ResourceData.Get d "enabled")
  && isMap (ResourceData.Get d "tags")
  && validate criteriaSchema "criteria" (ResourceData.Get d "criteria").

(** ** A configuration to run the code on *)

(** One criterion, with one dimension. *)
Definition exampleCriteria : value :=
  VSet [ VMap [ ("metric_name", VString "Average_%_Idle_Time");
                ("dimension",
                  VSet [ VMap [ ("name", VString "InstanceName");
                                ("operator", VString "Include");
                                ("values", VList [VString ""]) ] ]) ] ].

Definition exampleConfig : ResourceData.t :=
  {| ResourceData.id := "";
     ResourceData.isNewResource := true;
     ResourceData.fields :=
       <["name" := VString "r1"]>
         (<["resource_group_name" := VString "rg1"]>
            (<["action_type" := VString "LogToMetric"]>
               (<["criteria" := exampleCriteria]> ∅))) |}.

(** Criteria that would not pass validation (the operator is not
    "Include") but have the shape the expander reads. *)
Definition unvalidatedCriteria : list value :=
  [ VMap [ ("dimension",
             VSet [ VMap [ ("values", VList [VString "a"; VString "b"]);
                           ("operator", VString "Exclude");
                           ("name", VString "host") ] ]);
           ("metric_name", VString "cpu") ] ].

(** ** A provider kept in memory *)

(** A collaborator to run the handlers against: the remote side is a map
    from (resource group, name) to the stored rule; every call fails with
    the status [failure] when one is given, and [Get] and [Delete] answer
    404 for a rule that is not stored. *)

Definition exampleID : string :=
  "/subscriptions/0/resourceGroups/rg1/providers/microsoft.insights/scheduledqueryrules/r1".

Definition answer (status : Z) : autorest.Response :=
  {| autorest.Response_ := Some {| http.StatusCode := status |} |}.

Definition noRule (status : Z) : insights.LogSearchRuleResource :=
  {| insights.Response := answer status;
     insights.LogSearchRule_ := None;
     insights.ID := None;
     insights.Location := None;
     insights.Tags := [] |}.

(** The rule the provider answers with once it has stored [r]: the SDK
    decodes the action of an answer into the action struct itself, never
    into a pointer to it. *)
Definition decoded (rule : insights.LogSearchRule) : insights.LogSearchRule :=
  {| insights.Description := insights.Description rule;
     insights.Enabled := insights.Enabled rule;
     insights.LastUpdatedTime := insights.LastUpdatedTime rule;
     insights.ProvisioningState := insights.ProvisioningState rule;
     insights.Source_ := insights.Source_ rule;
     insights.Schedule_ := insights.Schedule_ rule;
     insights.Action :=
       match insights.Action rule with
       | insights.LogToMetricActionPtr action =>
           insights.LogToMetricAction_ action
       | action => action
       end |}.

Definition stored (status : Z) (r : insights.LogSearchRuleResource)
  : insights.LogSearchRuleResource :=
  {| insights.Response := answer status;
     insights.LogSearchRule_ := decoded <$> insights.LogSearchRule_ r;
     insights.ID := Some exampleID;
     insights.Location := insights.Location r;
     insights.Tags := insights.Tags r |}.

Definition Remote : Type := gmap (string * string) insights.LogSearchRuleResource.

Definition memoryMeta (imported : bool) (failure : option Z) : Meta Remote :=
  {| ShouldResourcesBeImported := imported;
     ParseAzureResourceID := fun id =>
       if String.eqb id exampleID then
         inr {| azure.SubscriptionID := "0";
                azure.ResourceGroup := "rg1";
                azure.Provider := "microsoft.insights";
                azure.Path := {[ "scheduledqueryrules" := "r1" ]} |}
       else inl (ExternalError "Cannot parse Azure ID");
     NormalizeLocation := fun v => default "" (stringOf v);
     expandMonitorScheduledQueryRulesSource := fun _ => None;
     expandMonitorScheduledQueryRulesSchedule := fun _ => None;
     tagsExpand := fun _ => [];
     Format := fun _ _ => "2020-01-01T00:00:00Z";
     WriteField := fun _ _ => None;
     Get := fun resourceGroup name w =>
       match failure with
       | Some status => (noRule status, Some (ExternalError "request failed"), w)
       | None =>
           match w !! (resourceGroup, name) with
           | Some r => (r, None, w)
           | None => (noRule 404, Some (ExternalError "not found"), w)
           end
       end;
     CreateOrUpdate := fun resourceGroup name parameters w =>
       match failure with
       | Some status => (noRule status, Some (ExternalError "request failed"), w)
       | None =>
           (stored 200 parameters, None,
            <[(resourceGroup, name) := stored 200 parameters]> w)
       end;
     Delete := fun resourceGroup name w =>
       match failure with
       | Some status => (answer status, Some (ExternalError "request failed"), w)
       | None =>
           match w !! (resourceGroup, name) with
           | Some _ => (answer 200, None, delete (resourceGroup, name) w)
           | None => (answer 404, Some (ExternalError "not found"), w)
           end
       end |}.

(** A rule as the provider returns it, with nothing but its action. *)
Definition logToMetric (criteria : option (list insights.Criteria))
  : insights.BasicAction :=
  insights.LogToMetricAction_
    {| insights.Criteria_ := criteria;
       insights.OdataType_ :=
         insights.OdataTypeMicrosoftWindowsAzureManagementMonitoringAlertsModelsMicrosoftAppInsightsNexusDataContractsResourcesScheduledQueryRulesLogToMetricAction |}.

Definition exampleRule (action : insights.BasicAction)
  : insights.LogSearchRule :=
  {| insights.Description := None;
     insights.Enabled := "";
     insights.LastUpdatedTime := None;
     insights.ProvisioningState := "";
     insights.Source_ := None;
     insights.Schedule_ := None;
     insights.Action := action |}.

Definition exampleResource (rule : insights.LogSearchRule)
  : insights.LogSearchRuleResource :=
  {| insights.Response := answer 200;
     insights.LogSearchRule_ := Some rule;
     insights.ID := Some exampleID;
     insights.Location := None;
     insights.Tags := [] |}.

(** A log-to-metric rule with a location, a description, the flag set and
    a source that has a data source and a query type, but no query and no
    authorized resources. *)
Definition sourcedResource : insights.LogSearchRuleResource :=
  {| insights.Response := answer 200;
     insights.LogSearchRule_ := Some
       {| insights.Description := Some "idle time";
          insights.Enabled := "true";
          insights.LastUpdatedTime := None;
          insights.ProvisioningState := "Succeeded";
          insights.Source_ := Some
            {| insights.Query := None;
               insights.AuthorizedResources := None;
               insights.DataSourceID := Some "/subscriptions/0/workspaces/w1";
               insights.QueryType := "ResultCount" |};
          insights.Schedule_ := None;
          insights.Action := logToMetric None |};
     insights.ID := Some exampleID;
     insights.Location := Some "westus";
     insights.Tags := [] |}.

(** A criterion the provider returned without a metric name. *)
Definition namelessCriteria : list insights.Criteria :=
  [ {| insights.MetricName := None; insights.Dimensions := None |} ].


(** The remote side that stores [r] as the rule r1 of the group rg1. *)
Definition remote (r : insights.LogSearchRuleResource) : Remote :=
  {[ ("rg1", "r1") := r ]}.

(** The collaborator [meta] with a field writer that refuses every write
    under [key]. *)
Definition refusing {W} (key : string) (meta : Meta W) : Meta W :=
  {| ShouldResourcesBeImported := ShouldResourcesBeImported meta;
     ParseAzureResourceID := ParseAzureResourceID meta;
     NormalizeLocation := NormalizeLocation meta;
     expandMonitorScheduledQueryRulesSource :=
       expandMonitorScheduledQueryRulesSource meta;
     expandMonitorScheduledQueryRulesSchedule :=
       expandMonitorScheduledQueryRulesSchedule meta;
     tagsExpand := tagsExpand meta;
     Format := Format meta;
     WriteField := fun k v =>
       if String.eqb k key then Some (ExternalError "field refused")
       else WriteField meta k v;
     Get := Get meta;
     CreateOrUpdate := CreateOrUpdate meta;
     Delete := Delete meta |}.

(** A criterion with its metric name and one dimension that only has a
    name and values. *)
Definition namedCriteria : list insights.Criteria :=
  [ {| insights.MetricName := Some "cpu";
       insights.Dimensions := Some
         [ {| insights.Name := Some "host";
              insights.Operator := None;
              insights.Values := Some ["a"; "b"] |} ] |} ].

(** The state a handler starts in: the resource data, the remote side, no
    call issued yet. *)
Definition start (d0 : ResourceData.t) (w : Remote) : St Remote :=
  {| d := d0; world := w; calls := [] |}.

(** Resource data that only holds an identifier. *)
Definition identified (id : string) : ResourceData.t :=
  {| ResourceData.id := id;
     ResourceData.isNewResource := false;
     ResourceData.fields := ∅ |}.

(** * Properties *)

(** ** Loops that append *)

Lemma for_range_snoc {A B : Type} (body : list B -> A -> Result (list B))
  (f : A -> B) (l : list A) :
  (forall acc x, x ∈ l -> body acc x = Ok (acc ++ [f x])) ->
  forall acc, for_range body acc l = Ok (acc ++ (f <$> l)).
Proof.
  induction l as [|x l IH]; intros Hbody acc; simpl.
  - by rewrite app_nil_r.
  - rewrite Hbody by constructor. simpl.
    change (for_range body (acc ++ [f x]) l = Ok (acc ++ f x :: (f <$> l))).
    rewrite IH.
    + by rewrite <- app_assoc.
    + intros acc' y Hy. apply Hbody. by constructor.
Qed.

Lemma fold_left_snoc {A B : Type} (body : list B -> A -> list B)
  (f : A -> B) (l : list A) :
  (forall acc x, body acc x = acc ++ [f x]) ->
  forall acc, fold_left body l acc = acc ++ (f <$> l).
Proof.
  intros Hbody. induction l as [|x l IH]; intros acc; simpl.
  - by rewrite app_nil_r.
  - rewrite Hbody, IH. by rewrite <- app_assoc.
Qed.

Lemma mapM_read_fmap {A B : Type} (read : A -> option B) (g : B -> A)
  (l : list B) :
  (forall x, read (g x) = Some x) -> mapM read (g <$> l) = Some l.
Proof.
  intros Hread. induction l as [|x l IH]; [done|].
  rewrite fmap_cons. cbn [mapM]. rewrite Hread. simpl. by rewrite IH.
Qed.

(** ** What schema validation guarantees about the criteria *)

Lemma all_strings (l : list value) :
  forallb isString l = true -> exists vs, l = VString <$> vs.
Proof.
  induction l as [|v l IH]; intros Hl.
  - by exists [].
  - simpl in Hl. apply andb_prop in Hl as [Hv Hl].
    destruct (IH Hl) as [vs ->].
    destruct v; try discriminate. by exists (s :: vs).
Qed.

Lemma ExpandStringSlice_strings (vs : list string) :
  ExpandStringSlice (VString <$> vs) = Ok vs.
Proof.
  unfold ExpandStringSlice.
  rewrite (for_range_snoc _ (fun v => default "" (stringOf v))).
  - rewrite app_nil_l. f_equal.
    induction vs as [|v vs IH]; [done|]. rewrite !fmap_cons. by f_equal.
  - intros acc x Hx. apply list_elem_of_fmap in Hx as [v [-> _]]. done.
Qed.

Lemma validate_dimension (k : string) (v : value) :
  validateElem (schema.ElemResource dimensionResource) k v = true ->
  exists e, readDimension v = Some e
    /\ forall acc, expandDimension acc v = Ok (acc ++ [dimensionOf e]).
Proof.
  destruct v as [| | | | |  |m| ]; try discriminate. simpl. intros H.
  apply andb_prop in H as [Hn H]. apply andb_prop in H as [Ho H].
  apply andb_prop in H as [H _].
  destruct (index m "name") as [| | |name| | | | ] eqn:Hname;
    try discriminate.
  destruct (index m "operator") as [| | |operator| | | | ] eqn:Hop;
    try discriminate.
  destruct (index m "values") as [| | | | |values| | ] eqn:Hvalues;
    try discriminate.
  cbn in H. apply andb_prop in H as [H _].
  apply (all_strings values) in H as [vs ->].
  exists (name, operator, vs). split.
  - simpl. by rewrite (mapM_read_fmap stringOf VString).
  - intros acc. unfold expandDimension. simpl.
    rewrite Hname, Hop, Hvalues. simpl.
    by rewrite ExpandStringSlice_strings.
Qed.

Lemma validate_dimensions (k : string) (ds : list value) :
  forallb (validateElem (schema.ElemResource dimensionResource) k) ds = true ->
  exists es, mapM readDimension ds = Some es
    /\ forall acc,
         for_range expandDimension acc ds = Ok (acc ++ (dimensionOf <$> es)).
Proof.
  induction ds as [|v ds IH]; intros H.
  - exists []. split; [done|]. intros acc. simpl. by rewrite app_nil_r.
  - cbn [forallb] in H. apply andb_prop in H as [Hv Hds].
    destruct (validate_dimension _ _ Hv) as (e & He & Hexp).
    destruct (IH Hds) as (es & Hes & Hexps).
    exists (e :: es). split.
    + cbn [mapM]. rewrite He. simpl. by rewrite Hes.
    + intros acc. cbn [for_range]. rewrite Hexp. simpl.
      change (for_range expandDimension (acc ++ [dimensionOf e]) ds
              = Ok (acc ++ dimensionOf e :: (dimensionOf <$> es))).
      rewrite Hexps. by rewrite <- app_assoc.
Qed.

Lemma validate_criterion (k : string) (v : value) :
  validateElem (schema.ElemResource criteriaResource) k v = true ->
  exists c, readCriterion v = Some c
    /\ forall acc, expandCriterion acc v = Ok (acc ++ [criterionOf c]).
Proof.
  destruct v as [| | | | |  |m| ]; try discriminate. simpl. intros H.
  apply andb_prop in H as [H Hn]. apply andb_prop in Hn as [Hn _].
  destruct (index m "dimension") as [| | | | | | |ds] eqn:Hds;
    try discriminate.
  destruct (index m "metric_name") as [| | |name| | | | ] eqn:Hname;
    try discriminate.
  change (forallb (validateElem (schema.ElemResource dimensionResource)
                     "dimension") ds && true = true) in H.
  apply andb_prop in H as [H _].
  destruct (validate_dimensions _ _ H) as (es & Hes & Hexp).
  exists (name, es). split.
  - unfold readDimensions. cbn [stringOf elementsOf mbind option_bind].
    by rewrite Hes.
  - intros acc. unfold expandCriterion. simpl. rewrite Hds, Hname. simpl.
    rewrite Hexp. done.
Qed.

Lemma validate_criteria (k : string) (v : value) :
  validate criteriaSchema k v = true ->
  exists l cs, v = VSet l /\ readCriteria v = Some cs
    /\ expandMonitorScheduledQueryRulesLogCriteria l
       = Ok (Some (criterionOf <$> cs)).
Proof.
  unfold validate. destruct v as [| | | | | | |l]; try discriminate.
  intros H.
  change (forallb (validateElem (schema.ElemResource criteriaResource) k) l
          && true = true) in H.
  apply andb_prop in H as [H _]. exists l.
  assert (exists cs, mapM readCriterion l = Some cs
            /\ forall acc, for_range expandCriterion acc l
                           = Ok (acc ++ (criterionOf <$> cs)))
    as (cs & Hcs & Hexp).
  { induction l as [|x l IH].
    - exists []. split; [done|]. intros acc. simpl. by rewrite app_nil_r.
    - cbn [forallb] in H. apply andb_prop in H as [Hx Hl].
      destruct (validate_criterion _ _ Hx) as (c & Hc & Hexp).
      destruct (IH Hl) as (cs & Hcs & Hexps).
      exists (c :: cs). split.
      + cbn [mapM]. rewrite Hc. simpl. by rewrite Hcs.
      + intros acc. cbn [for_range]. rewrite Hexp. simpl.
        change (for_range expandCriterion (acc ++ [criterionOf c]) l
                = Ok (acc ++ criterionOf c :: (criterionOf <$> cs))).
        rewrite Hexps. by rewrite <- app_assoc. }
  exists cs. split; [done|]. split; [done|].
  unfold expandMonitorScheduledQueryRulesLogCriteria. by rewrite Hexp.
Qed.

(** ** Flattening what the expander built *)

Lemma flatten_dimensions_of (es : list DimensionEntry) :
  readDimensions
    (VList (flattenAzureRmScheduledQueryRulesLogDimension
              (Some (dimensionOf <$> es)))) = Some es.
Proof.
  unfold flattenAzureRmScheduledQueryRulesLogDimension, readDimensions.
  rewrite (fold_left_snoc _ flattenDimensionItem) by done.
  rewrite app_nil_l, <- list_fmap_compose.
  cbn [elementsOf mbind option_bind].
  apply mapM_read_fmap. by intros [[name operator] values].
Qed.

Lemma flatten_criteria_of (cs : list (string * list DimensionEntry)) :
  exists r,
    flattenAzureRmScheduledQueryRulesLogCriteria (Some (criterionOf <$> cs))
    = Ok r
    /\ readCriteria (VList r) = Some cs.
Proof.
  set (item := fun criteria : insights.Criteria =>
         VMap [ ("dimension",
                  VList (flattenAzureRmScheduledQueryRulesLogDimension
                           (insights.Dimensions criteria)));
                ("metric_name",
                  VString (default "" (insights.MetricName criteria))) ]).
  exists (item <$> (criterionOf <$> cs)). split.
  - unfold flattenAzureRmScheduledQueryRulesLogCriteria.
    rewrite (for_range_snoc _ item); [done|].
    intros acc x Hx. apply list_elem_of_fmap in Hx as [c [-> _]]. done.
  - unfold readCriteria. cbn [elementsOf mbind option_bind].
    rewrite <- list_fmap_compose. apply mapM_read_fmap.
    intros [name es]. unfold item, criterionOf, compose.
    cbn [readCriterion index String.eqb Ascii.eqb Bool.eqb insights.MetricName
           insights.Dimensions default stringOf mbind option_bind fst snd].
    by rewrite flatten_dimensions_of.
Qed.

(** C1: when the criteria of a configuration pass schema validation, the
    expander accepts them, the flattener accepts the payload the expander
    built, and the flattened collection holds the same set of
    {metric_name, dimension{name, operator, values}} entries as the
    configured one, whatever the order of either collection. *)
Theorem flatten_expand_criteria_set_equal (c : value) :
  validate criteriaSchema "criteria" c = true ->
  exists l payload r,
    assert_Set c = Ok l
    /\ expandMonitorScheduledQueryRulesLogCriteria l = Ok payload
    /\ flattenAzureRmScheduledQueryRulesLogCriteria payload = Ok r
    /\ is_Some (criteriaSet c)
    /\ criteriaSet (VList r) = criteriaSet c.
Proof.
  intros Hvalid.
  destruct (validate_criteria _ _ Hvalid) as (l & cs & -> & Hread & Hexpand).
  destruct (flatten_criteria_of cs) as (r & Hflatten & Hback).
  exists l, (Some (criterionOf <$> cs)), r.
  unfold criteriaSet. rewrite Hread, Hback. by repeat split.
Qed.

Lemma flatten_expand_criteria_set_equal_witness :
  exists l payload r,
    assert_Set exampleCriteria = Ok l
    /\ expandMonitorScheduledQueryRulesLogCriteria l = Ok payload
    /\ flattenAzureRmScheduledQueryRulesLogCriteria payload = Ok r
    /\ is_Some (criteriaSet exampleCriteria)
    /\ criteriaSet (VList r) = criteriaSet exampleCriteria.
Proof.
  apply (flatten_expand_criteria_set_equal exampleCriteria). reflexivity.
Defined.

(** C7: the configuration of the scenario (name r1, resource group rg1,
    one criterion Average_%_Idle_Time with one dimension InstanceName,
    operator Include, values [""]) expands to a log-to-metric action: the
    log-to-metric discriminator, exactly one criterion with that metric
    name, exactly one dimension with that name. *)
Theorem expand_scenario :
  expandMonitorScheduledQueryRulesLogToMetricAction exampleConfig
  = Ok {| insights.Criteria_ := Some
            [ {| insights.MetricName := Some "Average_%_Idle_Time";
                 insights.Dimensions := Some
                   [ {| insights.Name := Some "InstanceName";
                        insights.Operator := Some "Include";
                        insights.Values := Some [""] |} ] |} ];
          insights.OdataType_ :=
            insights.OdataTypeMicrosoftWindowsAzureManagementMonitoringAlertsModelsMicrosoftAppInsightsNexusDataContractsResourcesScheduledQueryRulesLogToMetricAction |}.
Proof. reflexivity. Qed.

(** ** Reasoning about handlers *)

Section Reasoning.

Context {W : Type} (meta : Meta W).

Lemma bind_run {A B} (m : M W A) (f : A -> M W B) (s : St W) :
  (m ≫= f) s
  = match m s with
    | (inl a, s') => f a s'
    | (inr o, s') => (inr o, s')
    end.
Proof. reflexivity. Qed.

(** One step of a handler: [m] goes on, so what follows decides. *)
Lemma step {A B} (I : St W -> Prop) (m : M W A) (f : A -> M W B)
  (Q : (B + Outcome) * St W -> Prop) (s : St W) :
  proceeds m -> keeps I m -> I s ->
  (forall a s', I s' -> Q (f a s')) -> Q ((m ≫= f) s).
Proof.
  intros Hm HI Hs Hf. rewrite bind_run.
  destruct (Hm s) as [a Ha]. specialize (HI s Hs).
  destruct (m s) as [[a'|o] s']; simpl in *; [|discriminate].
  by apply Hf.
Qed.

Lemma bind_assoc {A B C} (m : M W A) (f : A -> M W B) (g : B -> M W C)
  (s : St W) :
  ((m ≫= f) ≫= g) s = (m ≫= (fun a => f a ≫= g)) s.
Proof. rewrite !bind_run. by destruct (m s) as [[a|o] s']. Qed.

Lemma ret_bind {A B} (a : A) (f : A -> M W B) (s : St W) :
  (mret a ≫= f) s = f a s.
Proof. reflexivity. Qed.

Lemma Return_bind {A B} (err : option error) (f : A -> M W B) (s : St W) :
  (Return err ≫= f) s = (inr (Returned err), s).
Proof. reflexivity. Qed.

Lemma lift_Ok_bind {A B} (a : A) (f : A -> M W B) (s : St W) :
  (lift (Ok a) ≫= f) s = f a s.
Proof. reflexivity. Qed.

Lemma lift_Panic_bind {A B} (msg : string) (f : A -> M W B) (s : St W) :
  (lift (Panic msg) ≫= f) s = (inr (Panicked msg), s).
Proof. reflexivity. Qed.

Lemma step_any {A B} (m : M W A) (f : A -> M W B)
  (Q : (B + Outcome) * St W -> Prop) (s : St W) :
  proceeds m -> (forall a s', Q (f a s')) -> Q ((m ≫= f) s).
Proof.
  intros Hm Hf. by apply (step (fun _ => True) m f Q s).
Qed.

Lemma holds_store (key : string) (v : value) (s : St W) :
  holds key (Some (ResourceData.recorded key v)) (world s) (calls s)
    {| d := ResourceData.store (d s) key v;
       world := world s; calls := calls s |}.
Proof. split; [|done]. simpl. by rewrite lookup_insert_eq. Qed.

(** An accepted write shows in the final state when what follows keeps
    it. *)
Lemma Set_written {B} (key : string) (v : value)
  (f : option error -> M W B) (s : St W) :
  WriteField meta key v = None ->
  (forall e,
     keeps (holds key (Some (ResourceData.recorded key v)) (world s)
              (calls s)) (f e)) ->
  ResourceData.fields (d ((Set_ meta key v ≫= f) s).2) !! key
  = Some (ResourceData.recorded key v).
Proof.
  intros Hw Hf. rewrite bind_run. unfold Set_. rewrite Hw.
  apply (Hf None), holds_store.
Qed.

(** *** Computations that go on *)

Lemma proceeds_ret {A} (a : A) : proceeds (mret a : M W A).
Proof. intros s. by exists a. Qed.

Lemma proceeds_bind {A B} (m : M W A) (f : A -> M W B) :
  proceeds m -> (forall a, proceeds (f a)) -> proceeds (m ≫= f).
Proof.
  intros Hm Hf s. rewrite bind_run. destruct (Hm s) as [a Ha].
  destruct (m s) as [[a'|o] s']; simpl in *; [|discriminate].
  apply Hf.
Qed.

Lemma proceeds_Set (key : string) (v : value) : proceeds (Set_ meta key v).
Proof.
  intros s. unfold Set_. destruct (WriteField meta key v); by eexists.
Qed.

Lemma proceeds_when (c : bool) (m : M W unit) :
  proceeds m -> proceeds (when c m).
Proof. destruct c; [done|]. intros _. apply proceeds_ret. Qed.

(** *** Computations that keep an invariant *)

Lemma keeps_ret {A} (I : St W -> Prop) (a : A) : keeps I (mret a : M W A).
Proof. by intros s. Qed.

Lemma keeps_Return {A} (I : St W -> Prop) (err : option error) :
  keeps I (Return err : M W A).
Proof. by intros s. Qed.

Lemma keeps_lift {A} (I : St W -> Prop) (r : Result A) : keeps I (lift r).
Proof. intros s. unfold lift. by destruct r. Qed.

Lemma keeps_bind {A B} (I : St W -> Prop) (m : M W A) (f : A -> M W B) :
  keeps I m -> (forall a, keeps I (f a)) -> keeps I (m ≫= f).
Proof.
  intros Hm Hf s Hs. rewrite bind_run. specialize (Hm s Hs).
  destruct (m s) as [[a|o] s']; simpl in *; [|done]. by apply Hf.
Qed.

Lemma keeps_deref_bind {A B} (I : St W -> Prop) (p : option A)
  (f : A -> M W B) :
  (forall a, p = Some a -> keeps I (f a)) -> keeps I (lift (deref p) ≫= f).
Proof.
  intros Hf s Hs. rewrite bind_run. destruct p as [a|]; [|done].
  by apply Hf.
Qed.

Lemma keeps_when (I : St W -> Prop) (c : bool) (m : M W unit) :
  keeps I m -> keeps I (when c m).
Proof. destruct c; [done|]. intros _. apply keeps_ret. Qed.

Lemma keeps_Set_other (key k : string) (v : value) (v0 : option value)
  (w : W) (cs : list Call) :
  key <> k -> keeps (holds k v0 w cs) (Set_ meta key v).
Proof.
  intros Hne s (Hk & Hw & Hcs). unfold Set_.
  destruct (WriteField meta key v); [done|]. simpl.
  split; [|done]. simpl. by rewrite lookup_insert_ne.
Qed.

(** *** Computations that do not panic *)

Lemma safe_ret {A} (a : A) : safe (mret a : M W A).
Proof. intros s msg H. discriminate H. Qed.

Lemma safe_Return {A} (err : option error) : safe (Return err : M W A).
Proof. intros s msg H. discriminate H. Qed.

Lemma safe_bind {A B} (m : M W A) (f : A -> M W B) :
  safe m -> (forall a, safe (f a)) -> safe (m ≫= f).
Proof.
  intros Hm Hf s msg. rewrite bind_run. specialize (Hm s msg).
  destruct (m s) as [[a|o] s']; [apply Hf|].
  simpl in *. intros [= ->]. by apply Hm.
Qed.

Lemma safe_Set (key : string) (v : value) : safe (Set_ meta key v).
Proof.
  intros s msg H. unfold Set_ in H.
  destruct (WriteField meta key v); discriminate H.
Qed.

Lemma safe_when (c : bool) (m : M W unit) : safe m -> safe (when c m).
Proof. destruct c; [done|]. intros _. apply safe_ret. Qed.

Lemma safe_returns (m : M W (option error)) (s : St W) :
  safe m -> exists err, outcome (m s).1 = Returned err.
Proof.
  intros Hm. specialize (Hm s). destruct (m s).1 as [err|[err|msg]]; simpl.
  - by exists err.
  - by exists err.
  - by destruct (Hm msg).
Qed.

End Reasoning.

(** The three properties follow the structure of a computation; a nil
    check is decided by a case distinction on the pointer. *)
Ltac follow lemma_ret lemma_bind lemma_when base :=
  repeat first
    [ apply lemma_ret
    | base
    | apply lemma_bind; [|intros ?]
    | match goal with
      | |- context [when (bool_decide (?x <> None)) _] =>
          destruct x eqn:?;
          [ apply lemma_when
          | change (bool_decide (@None _ <> None)) with false;
            apply lemma_ret ]
      | |- context [match ?x with _ => _ end] => destruct x eqn:?
      end ].

Ltac proceeding :=
  follow (@proceeds_ret) (@proceeds_bind) (@proceeds_when)
         ltac:(apply proceeds_Set).

Ltac keeping :=
  follow (@keeps_ret) (@keeps_bind) (@keeps_when)
         ltac:(first [ apply keeps_Return
                     | apply keeps_deref_bind; intros ? ?
                     | apply keeps_lift
                     | apply keeps_Set_other; discriminate ]).

Ltac safely :=
  follow (@safe_ret) (@safe_bind) (@safe_when)
         ltac:(first [ apply safe_Return | apply safe_Set ]).

(** One [step] from the state [s], of which [Hs] says that it satisfies
    [I]. *)
Ltac forward I s Hs :=
  apply (step I); [proceeding|keeping|exact Hs|];
  clear s Hs; intros ? s Hs.

Ltac onward s :=
  rewrite ?bind_assoc; apply step_any; [proceeding|]; clear s; intros ? s.

(** Membership in a list that is written out. *)
Ltac listed :=
  repeat first [ apply list_elem_of_here | apply list_elem_of_further ].

(** ** Failures of the provider in the read and delete handlers *)

(** C4: when the identifier parses and [client.Get] fails, the read handler
    looks at the response: on NotFound it clears the identifier (sets it to
    the empty string) and returns nil; on any other failure it returns an
    error built from the rule name, the resource group and the provider's
    error.  Either way the only call issued is the [Get]. *)
Theorem read_get_failure {W : Type} (meta : Meta W) (s : St W)
  (id : azure.ResourceID) (resp : insights.LogSearchRuleResource)
  (err : error) (w : W) :
  let resourceGroup := azure.ResourceGroup id in
  let name := azure.PathAt id "scheduledqueryrules" in
  ParseAzureResourceID meta (ResourceData.Id (d s)) = inr id ->
  Get meta resourceGroup name (world s) = (resp, Some err, w) ->
  run (resourceArmMonitorScheduledQueryRulesLogRead meta) s
  = if utils.ResponseWasNotFound (insights.Response resp)
    then (Returned None,
          {| d := ResourceData.SetId (d s) "";
             world := w;
             calls := calls s ++ [CallGet resourceGroup name] |})
    else (Returned (Some (Errorf
            "Error getting scheduled query rule %q (resource group %q): %+v"
            [ArgString name; ArgString resourceGroup; ArgError err])),
          {| d := d s;
             world := w;
             calls := calls s ++ [CallGet resourceGroup name] |}).
Proof.
  intros resourceGroup name Hparse Hget.
  unfold run, resourceArmMonitorScheduledQueryRulesLogRead.
  unfold mbind, M_mbind, M_bind, getData. rewrite Hparse.
  unfold clientGet. fold resourceGroup name. rewrite Hget.
  by destruct (utils.ResponseWasNotFound (insights.Response resp)).
Qed.

Lemma read_get_failure_witness :
  run (resourceArmMonitorScheduledQueryRulesLogRead (memoryMeta false None))
    (start (identified exampleID) ∅)
  = (Returned None,
     {| d := identified ""; world := ∅; calls := [CallGet "rg1" "r1"] |})
  /\ run (resourceArmMonitorScheduledQueryRulesLogRead
            (memoryMeta false (Some 500)))
       (start (identified exampleID) ∅)
     = (Returned (Some (Errorf
          "Error getting scheduled query rule %q (resource group %q): %+v"
          [ArgString "r1"; ArgString "rg1";
           ArgError (ExternalError "request failed")])),
        {| d := identified exampleID; world := ∅;
           calls := [CallGet "rg1" "r1"] |}).
Proof.
  split.
  - exact (read_get_failure (memoryMeta false None)
             (start (identified exampleID) ∅) _ _ _ _ eq_refl eq_refl).
  - exact (read_get_failure (memoryMeta false (Some 500))
             (start (identified exampleID) ∅) _ _ _ _ eq_refl eq_refl).
Defined.

(** C5: when the identifier parses and [client.Delete] fails, the delete
    handler returns nil if the response is NotFound, and otherwise an error
    built from the rule name, the resource group and the provider's error.
    The resource data are left as they were. *)
Theorem delete_failure {W : Type} (meta : Meta W) (s : St W)
  (id : azure.ResourceID) (resp : autorest.Response) (err : error) (w : W) :
  let resourceGroup := azure.ResourceGroup id in
  let name := azure.PathAt id "scheduledqueryrules" in
  ParseAzureResourceID meta (ResourceData.Id (d s)) = inr id ->
  Delete meta resourceGroup name (world s) = (resp, Some err, w) ->
  run (resourceArmMonitorScheduledQueryRulesLogDelete meta) s
  = (Returned
       (if response.WasNotFound (autorest.Response_ resp) then None
        else Some (Errorf
          "Error deleting scheduled query rule %q (resource group %q): %+v"
          [ArgString name; ArgString resourceGroup; ArgError err])),
     {| d := d s;
        world := w;
        calls := calls s ++ [CallDelete resourceGroup name] |}).
Proof.
  intros resourceGroup name Hparse Hdelete.
  unfold run, resourceArmMonitorScheduledQueryRulesLogDelete.
  unfold mbind, M_mbind, M_bind, getData. rewrite Hparse.
  unfold clientDelete. fold resourceGroup name. rewrite Hdelete.
  by destruct (response.WasNotFound (autorest.Response_ resp)).
Qed.

Lemma delete_failure_witness :
  run (resourceArmMonitorScheduledQueryRulesLogDelete (memoryMeta false None))
    (start (identified exampleID) ∅)
  = (Returned None,
     {| d := identified exampleID; world := ∅;
        calls := [CallDelete "rg1" "r1"] |})
  /\ run (resourceArmMonitorScheduledQueryRulesLogDelete
            (memoryMeta false (Some 500)))
       (start (identified exampleID) ∅)
     = (Returned (Some (Errorf
          "Error deleting scheduled query rule %q (resource group %q): %+v"
          [ArgString "r1"; ArgString "rg1";
           ArgError (ExternalError "request failed")])),
        {| d := identified exampleID; world := ∅;
           calls := [CallDelete "rg1" "r1"] |}).
Proof.
  split.
  - exact (delete_failure (memoryMeta false None)
             (start (identified exampleID) ∅) _ _ _ _ eq_refl eq_refl).
  - exact (delete_failure (memoryMeta false (Some 500))
             (start (identified exampleID) ∅) _ _ _ _ eq_refl eq_refl).
Defined.

(** ** The read handler *)

Section Read.

Context {W : Type} (meta : Meta W).

Lemma run_outcome (m : M W (option error)) (s : St W) :
  run m s = (outcome (m s).1, (m s).2).
Proof. unfold run. by destruct (m s) as [[err|o] s']. Qed.

(** Once the identifier is parsed and [client.Get] has answered without
    an error, the handler is its second half. *)
Lemma read_found (s : St W) (id : azure.ResourceID)
  (resp : insights.LogSearchRuleResource) (w : W) :
  ParseAzureResourceID meta (ResourceData.Id (d s)) = inr id ->
  Get meta (azure.ResourceGroup id) (azure.PathAt id "scheduledqueryrules")
    (world s) = (resp, None, w) ->
  resourceArmMonitorScheduledQueryRulesLogRead meta s
  = setFromResponse meta (azure.PathAt id "scheduledqueryrules")
      (azure.ResourceGroup id) resp
      (record (CallGet (azure.ResourceGroup id)
                 (azure.PathAt id "scheduledqueryrules")) w s).
Proof.
  intros Hparse Hget. unfold resourceArmMonitorScheduledQueryRulesLogRead.
  rewrite bind_run. unfold getData. rewrite Hparse.
  rewrite bind_run. unfold clientGet. by rewrite Hget.
Qed.

Lemma holds_record (key : string) (c : Call) (w : W) (s : St W) :
  holds key (ResourceData.fields (d s) !! key) w (calls s ++ [c])
    (record c w s).
Proof. done. Qed.

Lemma unknown_action (name resourceGroup : string)
  (resp : insights.LogSearchRuleResource) (rule : insights.LogSearchRule)
  (v0 : option value) (w : W) (cs : list Call) (s : St W) :
  insights.LogSearchRule_ resp = Some rule ->
  (forall action, insights.Action rule <> insights.LogToMetricAction_ action) ->
  holds "criteria" v0 w cs s ->
  exists s',
    setFromResponse meta name resourceGroup resp s
    = (inr (Returned (Some (Errorf
         "Unknown action type in scheduled query rule %q (resource group %q): %T"
         [ArgString name; ArgString resourceGroup;
          ArgTypeOf (insights.TypeOf (insights.Action rule))]))), s')
    /\ holds "criteria" v0 w cs s'.
Proof.
  intros Hrule Haction Hs. unfold setFromResponse.
  forward (holds "criteria" v0 w cs) s Hs.
  forward (holds "criteria" v0 w cs) s Hs.
  forward (holds "criteria" v0 w cs) s Hs.
  rewrite Hrule. rewrite bind_run. simpl.
  forward (holds "criteria" v0 w cs) s Hs.
  forward (holds "criteria" v0 w cs) s Hs.
  forward (holds "criteria" v0 w cs) s Hs.
  forward (holds "criteria" v0 w cs) s Hs.
  rewrite bind_run.
  destruct (insights.Action rule) as [| | |action|action] eqn:Ha;
    try (by exists s).
  by destruct (Haction action).
Qed.

(** A field written after a nil check stays as it was when the payload
    does not hold it. *)
Lemma guarded_unchanged (key name resourceGroup : string)
  (resp : insights.LogSearchRuleResource) (v0 : option value) (w : W)
  (cs : list Call) :
  key ∈ guarded -> payloadHas resp key = false ->
  keeps (holds key v0 w cs) (setFromResponse meta name resourceGroup resp).
Proof.
  intros Hkey Habsent. unfold guarded in Hkey.
  repeat (apply elem_of_cons in Hkey as [->|Hkey]);
    [..|by apply elem_of_nil in Hkey];
    unfold setFromResponse, tagsFlattenAndSet; keeping.
  all: exfalso; cbn in Habsent;
    repeat match goal with
           | H : _ = Some _ |- _ => rewrite H in Habsent; cbn in Habsent
           end;
    discriminate Habsent.
Qed.

(** The three fields written without a nil check right after the rule
    is reached. *)
Lemma unguarded_written (name resourceGroup : string)
  (resp : insights.LogSearchRuleResource) (rule : insights.LogSearchRule)
  (key : string) (v : value) (s : St W) :
  insights.LogSearchRule_ resp = Some rule ->
  (key, v) ∈
    [ ("provisioning_state", VString (insights.ProvisioningState rule));
      ("enabled",
        VBool (String.eqb (insights.Enabled rule) insights.True_));
      ("description", pointer VString (insights.Description rule)) ] ->
  WriteField meta key v = None ->
  ResourceData.fields
    (d (setFromResponse meta name resourceGroup resp s).2) !! key
  = Some (ResourceData.recorded key v).
Proof.
  intros Hrule Hkey Hwrite. unfold setFromResponse.
  onward s. onward s. onward s. rewrite Hrule, bind_run. simpl.
  onward s.
  repeat (apply elem_of_cons in Hkey as [[= -> ->]|Hkey]);
    [..|by apply elem_of_nil in Hkey].
  - apply Set_written; [done|intros ?].
    unfold tagsFlattenAndSet; keeping.
  - onward s.
    destruct (String.eqb (insights.Enabled rule) insights.True_);
      (apply Set_written; [done|intros ?]);
      unfold tagsFlattenAndSet; keeping.
  - onward s. onward s. apply Set_written; [done|intros ?].
    unfold tagsFlattenAndSet; keeping.
Qed.

(** A read that succeeds has written [query_type] when the rule has a
    source. *)
Lemma query_type_written (name resourceGroup : string)
  (resp : insights.LogSearchRuleResource) (rule : insights.LogSearchRule)
  (source : insights.Source) (s : St W) :
  insights.LogSearchRule_ resp = Some rule ->
  insights.Source_ rule = Some source ->
  WriteField meta "query_type" (VString (insights.QueryType source)) = None ->
  outcome (setFromResponse meta name resourceGroup resp s).1
  = Returned None ->
  ResourceData.fields
    (d (setFromResponse meta name resourceGroup resp s).2) !! "query_type"
  = Some (VString (insights.QueryType source)).
Proof.
  intros Hrule Hsource Hwrite. unfold setFromResponse.
  onward s. onward s. onward s. rewrite Hrule, bind_run. simpl.
  onward s. onward s. onward s. onward s.
  destruct (insights.Action rule) as [| | |action|action];
    try (rewrite Return_bind; intros H; discriminate H).
  rewrite !bind_assoc.
  destruct (flattenAzureRmScheduledQueryRulesLogCriteria _) as [cr|msg];
    [rewrite lift_Ok_bind|rewrite lift_Panic_bind; intros H; discriminate H].
  rewrite !bind_assoc.
  apply step_any; [proceeding|]; clear s; intros [err|] s;
    [rewrite Return_bind; intros H; discriminate H|rewrite ret_bind].
  onward s. rewrite Hsource. cbv beta iota.
  onward s. onward s. onward s. intros _. rewrite bind_assoc.
  apply Set_written; [done|intros ?].
  unfold tagsFlattenAndSet; keeping.
Qed.



End Read.


Section ReadTheorems.

Context {W : Type} (meta : Meta W).

(** C10: when the rule the provider returns carries an action that is not
    a [LogToMetricAction] (an alerting action, say), the read handler
    returns the error that names the unknown action type, the rule and
    its resource group; it issues no further call and leaves [criteria]
    as it was, so criteria are flattened for the log-to-metric variant
    only. *)
Theorem read_unknown_action (s : St W) (id : azure.ResourceID)
  (resp : insights.LogSearchRuleResource) (rule : insights.LogSearchRule)
  (w : W) :
  let resourceGroup := azure.ResourceGroup id in
  let name := azure.PathAt id "scheduledqueryrules" in
  ParseAzureResourceID meta (ResourceData.Id (d s)) = inr id ->
  Get meta resourceGroup name (world s) = (resp, None, w) ->
  insights.LogSearchRule_ resp = Some rule ->
  (forall action, insights.Action rule <> insights.LogToMetricAction_ action) ->
  exists s',
    run (resourceArmMonitorScheduledQueryRulesLogRead meta) s
    = (Returned (Some (Errorf
         "Unknown action type in scheduled query rule %q (resource group %q): %T"
         [ArgString name; ArgString resourceGroup;
          ArgTypeOf (insights.TypeOf (insights.Action rule))])), s')
    /\ ResourceData.fields (d s') !! "criteria"
       = ResourceData.fields (d s) !! "criteria"
    /\ world s' = w
    /\ calls s' = calls s ++ [CallGet resourceGroup name].
Proof.
  intros resourceGroup name Hparse Hget Hrule Haction.
  rewrite run_outcome, (read_found meta s id resp w Hparse Hget).
  destruct (unknown_action meta name resourceGroup resp rule _ _ _ _
              Hrule Haction
              (holds_record "criteria" (CallGet resourceGroup name) w s))
    as (s' & Hrun & Hcriteria & Hworld & Hcalls).
  exists s'. fold resourceGroup name. by rewrite Hrun.
Qed.

(** C2, amended: after a [Get] without error the read handler writes
    [location], [last_updated_time], [frequency], [time_window],
    [authorized_resources], [data_source_id] and [query] only when the
    payload holds them: a field the payload lacks is left as it was.
    [provisioning_state], [enabled] and [description] are written
    whenever the payload has its properties, with what the payload holds:
    [enabled] is true exactly when the remote flag is [true] (so false
    when the flag is absent), [provisioning_state] takes the payload's
    string, the empty one included, and [description] takes the payload's
    string, or the empty string when the payload has none.  [query_type]
    is written with the payload's string when the rule has a source and
    the read succeeds. *)
Theorem read_writes_fields (s : St W) (id : azure.ResourceID)
  (resp : insights.LogSearchRuleResource) (w : W) :
  let resourceGroup := azure.ResourceGroup id in
  let name := azure.PathAt id "scheduledqueryrules" in
  let after := run (resourceArmMonitorScheduledQueryRulesLogRead meta) s in
  ParseAzureResourceID meta (ResourceData.Id (d s)) = inr id ->
  Get meta resourceGroup name (world s) = (resp, None, w) ->
  (forall key,
     key ∈ guarded -> payloadHas resp key = false ->
     ResourceData.fields (d after.2) !! key
     = ResourceData.fields (d s) !! key)
  /\ (forall rule,
        insights.LogSearchRule_ resp = Some rule ->
        (forall key v,
           (key, v) ∈
             [ ("provisioning_state",
                 VString (insights.ProvisioningState rule));
               ("enabled",
                 VBool (String.eqb (insights.Enabled rule) insights.True_)) ] ->
           WriteField meta key v = None ->
           ResourceData.fields (d after.2) !! key = Some v)
        /\ (WriteField meta "description"
              (pointer VString (insights.Description rule)) = None ->
            ResourceData.fields (d after.2) !! "description"
            = Some (VString (default "" (insights.Description rule)))
            /\ ResourceData.Get (d after.2) "description"
               = VString (default "" (insights.Description rule)))
        /\ (forall source,
              insights.Source_ rule = Some source ->
              WriteField meta "query_type"
                (VString (insights.QueryType source)) = None ->
              after.1 = Returned None ->
              ResourceData.fields (d after.2) !! "query_type"
              = Some (VString (insights.QueryType source)))).
Proof.
  intros resourceGroup name after Hparse Hget. subst after.
  rewrite run_outcome, (read_found meta s id resp w Hparse Hget).
  cbn [fst snd]. split; [|split; [|split]].
  - intros key Hkey Habsent.
    apply (guarded_unchanged meta key name resourceGroup resp _ w _
             Hkey Habsent _
             (holds_record key (CallGet resourceGroup name) w s)).
  - intros key v Hkey Hwrite.
    assert (Hrecorded : ResourceData.recorded key v = v).
    { repeat (apply elem_of_cons in Hkey as [[= -> ->]|Hkey]);
        [done..|by apply elem_of_nil in Hkey]. }
    rewrite <- Hrecorded.
    apply unguarded_written with (rule := rule); [done| |done].
    repeat (apply elem_of_cons in Hkey as [[= -> ->]|Hkey]);
      [listed..|by apply elem_of_nil in Hkey].
  - intros Hwrite.
    assert (Hstored :
      ResourceData.fields
        (d (setFromResponse meta name resourceGroup resp
              (record (CallGet resourceGroup name) w s)).2) !! "description"
      = Some (VString (default "" (insights.Description rule)))).
    { rewrite (unguarded_written meta name resourceGroup resp rule
                 "description" (pointer VString (insights.Description rule)))
        by (done || listed).
      by destruct (insights.Description rule). }
    unfold name, resourceGroup in Hstored.
    split; [done|]. unfold ResourceData.Get. by rewrite Hstored.
  - intros source. by apply query_type_written.
Qed.


End ReadTheorems.

(** ** The read handler on the provider kept in memory *)

Lemma read_unknown_action_witness :
  exists s',
    run (resourceArmMonitorScheduledQueryRulesLogRead (memoryMeta false None))
      (start (identified exampleID)
         (remote (exampleResource (exampleRule insights.AlertingAction_))))
    = (Returned (Some (Errorf
         "Unknown action type in scheduled query rule %q (resource group %q): %T"
         [ArgString "r1"; ArgString "rg1";
          ArgTypeOf "insights.AlertingAction"])), s')
    /\ ResourceData.fields (d s') !! "criteria" = None
    /\ world s'
       = remote (exampleResource (exampleRule insights.AlertingAction_))
    /\ calls s' = [CallGet "rg1" "r1"].
Proof.
  refine (read_unknown_action (memoryMeta false None)
            (start (identified exampleID)
               (remote (exampleResource (exampleRule insights.AlertingAction_))))
            _ _ _ _ eq_refl eq_refl eq_refl _).
  intros action H. discriminate H.
Defined.

Lemma read_writes_fields_witness :
  let after :=
    run (resourceArmMonitorScheduledQueryRulesLogRead (memoryMeta false None))
      (start (identified exampleID) (remote sourcedResource)) in
  ResourceData.fields (d after.2) !! "query" = None
  /\ ResourceData.fields (d after.2) !! "authorized_resources" = None
  /\ ResourceData.fields (d after.2) !! "enabled" = Some (VBool true)
  /\ ResourceData.fields (d after.2) !! "description"
     = Some (VString "idle time")
  /\ ResourceData.fields (d after.2) !! "query_type"
     = Some (VString "ResultCount").
Proof.
  destruct (read_writes_fields (memoryMeta false None)
              (start (identified exampleID) (remote sourcedResource))
              _ _ _ eq_refl eq_refl) as [Hguarded Hrule].
  destruct (Hrule _ eq_refl) as (Hwritten & Hdescription & Hquery_type).
  refine (conj _ (conj _ (conj _ (conj _ _)))).
  - apply (Hguarded "query"); [listed|reflexivity].
  - apply (Hguarded "authorized_resources");
      [listed|reflexivity].
  - apply (Hwritten "enabled" (VBool true)); [listed|reflexivity].
  - exact (proj1 (Hdescription eq_refl)).
  - apply (Hquery_type _ eq_refl eq_refl). reflexivity.
Defined.

(** The claim C2 as the specification states it fails on a rule whose
    payload has no flag, no provisioning state and no description: none of
    the three fields is in the state before the read, none is in the
    payload, and the read, which succeeds, stores [false], the empty string
    and the empty string. *)
Lemma read_sets_absent_fields :
  let payload := exampleResource (exampleRule (logToMetric None)) in
  let before := start (identified exampleID) (remote payload) in
  let after :=
    run (resourceArmMonitorScheduledQueryRulesLogRead (memoryMeta false None))
      before in
  (insights.Enabled <$> insights.LogSearchRule_ payload = Some ""
   /\ insights.ProvisioningState <$> insights.LogSearchRule_ payload = Some ""
   /\ insights.LogSearchRule_ payload ≫= insights.Description = None)
  /\ (ResourceData.fields (d before) !! "enabled" = None
      /\ ResourceData.fields (d before) !! "provisioning_state" = None
      /\ ResourceData.fields (d before) !! "description" = None)
  /\ after.1 = Returned None
  /\ ResourceData.fields (d after.2) !! "enabled" = Some (VBool false)
  /\ ResourceData.fields (d after.2) !! "provisioning_state"
     = Some (VString "")
  /\ ResourceData.fields (d after.2) !! "description" = Some (VString "").
Proof. vm_compute. repeat split. Qed.


(** ** The flattener on a criterion without a metric name *)

(** C3 fails on the code: the criteria flattener dereferences
    [criteria.MetricName] without the nil check its sibling for dimensions
    makes on every pointer. On a payload with a criterion that has no metric
    name the flattener panics, and so does the read handler that calls it,
    after it has written the fields that come before the criteria. *)
Theorem flatten_nameless_criteria_panics :
  flattenAzureRmScheduledQueryRulesLogCriteria (Some namelessCriteria)
  = Panic nil_dereference
  /\ (run (resourceArmMonitorScheduledQueryRulesLogRead
             (memoryMeta false None))
        (start (identified exampleID)
           (remote (exampleResource
                      (exampleRule (logToMetric (Some namelessCriteria))))))).1
     = Panicked nil_dereference.
Proof. split; reflexivity. Qed.

(** The dimension flattener has no such dereference: with a nil name, a nil
    operator and nil values it builds an entry without the three keys. *)
Lemma flatten_dimension_without_fields :
  flattenAzureRmScheduledQueryRulesLogDimension
    (Some [ {| insights.Name := None;
               insights.Operator := None;
               insights.Values := None |} ])
  = [VMap []].
Proof. reflexivity. Qed.

(** The criteria flattener returns when every criterion has its metric
    name. *)
Lemma flatten_named_criteria (l : list insights.Criteria) :
  Forall (fun criteria => is_Some (insights.MetricName criteria)) l ->
  exists r, flattenAzureRmScheduledQueryRulesLogCriteria (Some l) = Ok r.
Proof.
  intros Hl. unfold flattenAzureRmScheduledQueryRulesLogCriteria.
  generalize (@nil value) at 2.
  induction Hl as [|criteria l [name Hname] _ IH]; intros acc; simpl.
  - by exists acc.
  - unfold flattenCriteriaItem. rewrite Hname. simpl. apply IH.
Qed.

(** ** Validation of the severity *)

(** C8: the validator of the [severity] field accepts an integer exactly
    when it is one of 0, 1, 2, 3, 4; for any other integer it reports an
    error, so that schema validation, which the host framework runs before
    any handler and so before the expander, rejects the configuration. *)
Theorem severity_validation (v : Z) :
  (validate severitySchema "severity" (VInt v) = true
   <-> v ∈ [0; 1; 2; 3; 4])
  /\ (v ∉ [0; 1; 2; 3; 4] ->
      runValidateFunc severitySchema "severity" (VInt v)
      = [Errorf "expected %s to be one of %v, got %d"
           [ArgString "severity"; ArgInts [0; 1; 2; 3; 4]; ArgInt v]]).
Proof.
  assert (existsb (fun validInt => Z.eqb v validInt) [0; 1; 2; 3; 4] = true
          <-> v ∈ [0; 1; 2; 3; 4]) as Hin.
  { rewrite existsb_exists. split.
    - intros (x & Hx & ->%Z.eqb_eq). by apply list_elem_of_In.
    - intros Hv. exists v. split; [by apply list_elem_of_In|apply Z.eqb_refl]. }
  unfold validate, runValidateFunc. cbn -[existsb elem_of].
  destruct (existsb _ _) eqn:Hb.
  - split; [by split; [intros _; apply Hin|]|].
    intros Hv. by destruct Hv; apply Hin.
  - split; [|done]. split; [done|]. intros Hv%Hin. discriminate.
Qed.

(** ** The create/update handler *)

Section Create.

Context {W : Type} (meta : Meta W).

Lemma getData_bind {B} (f : ResourceData.t -> M W B) (s : St W) :
  (getData ≫= f) s = f (d s) s.
Proof. reflexivity. Qed.

Lemma SetId_bind {B} (v : string) (f : unit -> M W B) (s : St W) :
  (SetId v ≫= f) s
  = f tt {| d := ResourceData.SetId (d s) v;
            world := world s; calls := calls s |}.
Proof. reflexivity. Qed.

Lemma clientGet_bind {B} (resourceGroup name : string)
  (f : insights.LogSearchRuleResource * option error -> M W B) (s : St W) :
  (clientGet meta resourceGroup name ≫= f) s
  = f (Get meta resourceGroup name (world s)).1
      (record (CallGet resourceGroup name)
         (Get meta resourceGroup name (world s)).2 s).
Proof.
  rewrite bind_run. unfold clientGet.
  by destruct (Get meta resourceGroup name (world s)) as [[resp err] w].
Qed.

Lemma clientCreateOrUpdate_bind {B} (resourceGroup name : string)
  (parameters : insights.LogSearchRuleResource)
  (f : insights.LogSearchRuleResource * option error -> M W B) (s : St W) :
  (clientCreateOrUpdate meta resourceGroup name parameters ≫= f) s
  = f (CreateOrUpdate meta resourceGroup name parameters (world s)).1
      (record (CallCreateOrUpdate resourceGroup name parameters)
         (CreateOrUpdate meta resourceGroup name parameters (world s)).2 s).
Proof.
  rewrite bind_run. unfold clientCreateOrUpdate.
  by destruct (CreateOrUpdate meta resourceGroup name parameters (world s))
    as [[resp err] w].
Qed.

(** What a configured resource holds. *)
Lemma configured_fields (d0 : ResourceData.t) :
  configured d0 = true ->
  exists name resourceGroup description enabled t action,
    ResourceData.Get d0 "name" = VString name
    /\ ResourceData.Get d0 "resource_group_name" = VString resourceGroup
    /\ ResourceData.Get d0 "description" = VString description
    /\ ResourceData.Get d0 "enabled" = VBool enabled
    /\ ResourceData.Get d0 "tags" = VMap t
    /\ expandMonitorScheduledQueryRulesLogToMetricAction d0 = Ok action.
Proof.
  unfold configured. intros H.
  apply andb_prop in H as [H Hcriteria]. apply andb_prop in H as [H Htags].
  apply andb_prop in H as [H Henabled].
  apply andb_prop in H as [H Hdescription].
  apply andb_prop in H as [Hname Hgroup].
  destruct (validate_criteria _ _ Hcriteria) as (l & cs & Hl & _ & Hexpand).
  destruct (ResourceData.Get d0 "name") as [| | |name| | | | ];
    try discriminate.
  destruct (ResourceData.Get d0 "resource_group_name")
    as [| | |resourceGroup| | | | ]; try discriminate.
  destruct (ResourceData.Get d0 "description")
    as [| | |description| | | | ]; try discriminate.
  destruct (ResourceData.Get d0 "enabled") as [|enabled| | | | | | ];
    try discriminate.
  destruct (ResourceData.Get d0 "tags") as [| | | | | |t| ];
    try discriminate.
  eexists name, resourceGroup, description, enabled, t, _.
  repeat split.
  unfold expandMonitorScheduledQueryRulesLogToMetricAction.
  rewrite Hl. simpl. by rewrite Hexpand.
Qed.

(** A presence check that did not fail goes on. *)
Lemma check_passed (name resourceGroup : string)
  (existing : insights.LogSearchRuleResource) (err : option error) :
  checkFailed existing err = false ->
  (match err with
   | Some err =>
       if negb (utils.ResponseWasNotFound (insights.Response existing))
       then
         Return (Some (Errorf
           "Error checking for presence of existing Monitor Scheduled Query Rules %q (Resource Group %q): %s"
           [ArgString name; ArgString resourceGroup; ArgError err]))
       else mret tt
   | None => mret tt
   end : M W unit) = mret tt.
Proof.
  unfold checkFailed. intros Hpassed. destruct err; [|done].
  by rewrite Hpassed.
Qed.

(** The second half of the handler is what the specification says. *)
Lemma create_tail (d0 : ResourceData.t) (name resourceGroup : string)
  (description : string) (enabled : bool) (t : list (string * value))
  (action : insights.LogToMetricAction) (checked : St W) :
  ResourceData.Get d0 "description" = VString description ->
  ResourceData.Get d0 "enabled" = VBool enabled ->
  ResourceData.Get d0 "tags" = VMap t ->
  expandMonitorScheduledQueryRulesLogToMetricAction d0 = Ok action ->
  match createOrUpdateAndRead meta d0 name resourceGroup checked with
  | (inl err, s') => (Returned err, s')
  | (inr o, s') => (o, s')
  end
  = createThenRead meta name resourceGroup
      (parametersOf meta d0 description enabled action t) checked.
Proof.
  intros Hdescription Henabled Htags Haction.
  unfold createOrUpdateAndRead, createThenRead.
  rewrite Hdescription, Henabled, Htags, Haction.
  cbn [assert_string assert_bool assert_map]. rewrite !lift_Ok_bind.
  rewrite clientCreateOrUpdate_bind.
  destruct (CreateOrUpdate meta resourceGroup name _ (world checked))
    as [[created [err|]] w]; cbn [fst snd]; [by rewrite Return_bind|].
  rewrite ret_bind, clientGet_bind.
  cbn [world record].
  destruct (Get meta resourceGroup name w) as [[read [err|]] w'];
    cbn [fst snd]; [by rewrite Return_bind|].
  rewrite ret_bind.
  destruct (insights.ID read) as [readID|]; [|by rewrite Return_bind].
  by rewrite SetId_bind.
Qed.

(** C6, amended: a configured resource is created or updated as follows.
    When it is new and import protection is on, [Get] is called first:
    if that fails with something else than NotFound, the handler returns
    an error naming the rule and its resource group; else, if [Get]
    returned a non-empty ID, it returns the import error for that ID; in
    both cases no create/update call is issued.  Otherwise, and whenever
    import protection is off or the resource is not new, the handler
    issues the create/update call with the expanded log-to-metric action
    and goes on as [createThenRead] says: it performs the read once that
    call and the [Get] after it have succeeded with an ID. *)
Theorem create_update_import_protection (s : St W)
  (name resourceGroup : string)
  (existing : insights.LogSearchRuleResource) (err : option error) (w : W) :
  let protected :=
    ShouldResourcesBeImported meta && ResourceData.IsNewResource (d s) in
  let checked := record (CallGet resourceGroup name) w s in
  let result :=
    run (resourceArmMonitorScheduledQueryRulesLogCreateUpdate meta) s in
  configured (d s) = true ->
  ResourceData.Get (d s) "name" = VString name ->
  ResourceData.Get (d s) "resource_group_name" = VString resourceGroup ->
  Get meta resourceGroup name (world s) = (existing, err, w) ->
  (forall e,
     protected = true -> err = Some e -> checkFailed existing err = true ->
     result
     = (Returned (Some (Errorf
          "Error checking for presence of existing Monitor Scheduled Query Rules %q (Resource Group %q): %s"
          [ArgString name; ArgString resourceGroup; ArgError e])),
        checked))
  /\ (forall existingID,
        protected = true -> checkFailed existing err = false ->
        insights.ID existing = Some existingID -> existingID <> "" ->
        result
        = (Returned (Some (ImportAsExistsError
             "azurerm_monitor_scheduled_query_rules_log" existingID)),
           checked))
  /\ (exists description enabled t action,
        ResourceData.Get (d s) "description" = VString description
        /\ ResourceData.Get (d s) "enabled" = VBool enabled
        /\ ResourceData.Get (d s) "tags" = VMap t
        /\ expandMonitorScheduledQueryRulesLogToMetricAction (d s)
           = Ok action
        /\ let parameters :=
             parametersOf meta (d s) description enabled action t in
           (protected = true -> checkFailed existing err = false ->
            alreadyExists existing = false ->
            result = createThenRead meta name resourceGroup parameters
                       checked)
           /\ (protected = false ->
               result = createThenRead meta name resourceGroup parameters
                          s)).
Proof.
  intros protected checked result Hconfigured Hname Hgroup Hget.
  destruct (configured_fields (d s) Hconfigured)
    as (name' & resourceGroup' & description & enabled & t & action
        & Hname' & Hgroup' & Hdescription & Henabled & Htags & Haction).
  subst result protected. unfold run.
  unfold resourceArmMonitorScheduledQueryRulesLogCreateUpdate.
  rewrite getData_bind, Hname, Hgroup. cbn [assert_string].
  rewrite !lift_Ok_bind.
  split; [|split].
  - intros e Hprotected -> Hfailed. rewrite Hprotected.
    unfold when. rewrite !bind_assoc, clientGet_bind, Hget.
    cbn [fst snd]. rewrite bind_assoc. cbn in Hfailed. rewrite Hfailed.
    by rewrite Return_bind.
  - intros existingID Hprotected Hpassed HID Hnonempty. rewrite Hprotected.
    unfold when. rewrite !bind_assoc, clientGet_bind, Hget.
    cbn [fst snd]. rewrite bind_assoc.
    rewrite check_passed by done. rewrite ret_bind, HID.
    destruct (String.eqb_spec existingID ""); [done|]. cbn [negb].
    by rewrite Return_bind.
  - exists description, enabled, t, action.
    do 4 (split; [done|]). cbv zeta. split.
    + intros Hprotected Hpassed Hnew. rewrite Hprotected.
      unfold when. rewrite !bind_assoc, clientGet_bind, Hget.
      cbn [fst snd]. rewrite bind_assoc, check_passed by done.
      rewrite ret_bind.
      assert ((match insights.ID existing with
               | Some existingID =>
                   if negb (String.eqb existingID "")
                   then Return (Some (ImportAsExistsError
                          "azurerm_monitor_scheduled_query_rules_log"
                          existingID))
                   else mret tt
               | None => mret tt
               end : M W unit) = mret tt) as ->.
      { unfold alreadyExists in Hnew.
        destruct (insights.ID existing); [|done]. by rewrite Hnew. }
      rewrite ret_bind. by apply create_tail.
    + intros Hprotected. rewrite Hprotected. unfold when.
      rewrite ret_bind. by apply create_tail.
Qed.

End Create.

(** ** The create/update handler on the provider kept in memory *)

Lemma create_update_import_protection_witness :
  let created :=
    run (resourceArmMonitorScheduledQueryRulesLogCreateUpdate
           (memoryMeta true None)) (start exampleConfig ∅) in
  let refused :=
    run (resourceArmMonitorScheduledQueryRulesLogCreateUpdate
           (memoryMeta true None))
      (start exampleConfig
         (remote (exampleResource (exampleRule (logToMetric None))))) in
  (exists parameters,
     created
     = createThenRead (memoryMeta true None) "r1" "rg1" parameters
         (record (CallGet "rg1" "r1") ∅ (start exampleConfig ∅)))
  /\ created.1 = Returned None
  /\ ResourceData.Id (d created.2) = exampleID
  /\ refused
     = (Returned (Some (ImportAsExistsError
          "azurerm_monitor_scheduled_query_rules_log" exampleID)),
        record (CallGet "rg1" "r1")
          (remote (exampleResource (exampleRule (logToMetric None))))
          (start exampleConfig
             (remote (exampleResource (exampleRule (logToMetric None)))))).
Proof.
  refine (conj _ (conj _ (conj _ _))).
  - assert (Get (memoryMeta true None) "rg1" "r1"
              (world (start exampleConfig ∅))
            = (noRule 404, Some (ExternalError "not found"), ∅)) as Hget
      by (vm_compute; reflexivity).
    destruct (create_update_import_protection (memoryMeta true None)
                (start exampleConfig ∅) "r1" "rg1" _ _ _
                eq_refl eq_refl eq_refl Hget)
      as (_ & _ & description & enabled & t & action & _ & _ & _ & _
          & Hcreated & _).
    eexists. exact (Hcreated eq_refl eq_refl eq_refl).
  - reflexivity.
  - reflexivity.
  - assert (Get (memoryMeta true None) "rg1" "r1"
              (world (start exampleConfig
                        (remote (exampleResource
                                   (exampleRule (logToMetric None))))))
            = (exampleResource (exampleRule (logToMetric None)), None,
               remote (exampleResource (exampleRule (logToMetric None)))))
      as Hget by (vm_compute; reflexivity).
    refine (proj1 (proj2 (create_update_import_protection
                            (memoryMeta true None)
                            (start exampleConfig
                               (remote (exampleResource
                                          (exampleRule (logToMetric None)))))
                            "r1" "rg1" _ _ _
                            eq_refl eq_refl eq_refl Hget))
              exampleID eq_refl eq_refl eq_refl _).
    intros H. discriminate H.
Defined.

(** The claim C6 as the specification states it fails when the presence
    check itself fails: import protection is on, the resource is new, [Get]
    answers 500 and returns no ID, so no object is known to exist; yet no
    create/update call is issued, and the handler returns the error of the
    check after the one [Get]. *)
Lemma create_check_failure_issues_no_call :
  let meta := memoryMeta true (Some 500) in
  let before := start exampleConfig ∅ in
  let existing := (Get meta "rg1" "r1" (world before)).1.1 in
  ShouldResourcesBeImported meta
  && ResourceData.IsNewResource (d before) = true
  /\ alreadyExists existing = false
  /\ run (resourceArmMonitorScheduledQueryRulesLogCreateUpdate meta) before
     = (Returned (Some (Errorf
          "Error checking for presence of existing Monitor Scheduled Query Rules %q (Resource Group %q): %s"
          [ArgString "r1"; ArgString "rg1";
           ArgError (ExternalError "request failed")])),
        {| d := exampleConfig; world := ∅; calls := [CallGet "rg1" "r1"] |}).
Proof. repeat split. Qed.


(** * Further properties *)

(** ** The flatteners, entry by entry *)

Lemma flatten_dimension_map (l : list insights.Dimension) :
  flattenAzureRmScheduledQueryRulesLogDimension (Some l)
  = flattenDimensionItem <$> l.
Proof.
  unfold flattenAzureRmScheduledQueryRulesLogDimension.
  by rewrite (fold_left_snoc _ flattenDimensionItem).
Qed.

(** X1: the dimension flattener yields one entry per dimension, in the
    order of the payload, and the entry of a dimension holds [name],
    [operator] and [values] exactly for the fields the dimension has: a nil
    field leaves its key out and does not disturb the other two. *)
Theorem flatten_dimension_entries (l : list insights.Dimension) :
  length (flattenAzureRmScheduledQueryRulesLogDimension (Some l)) = length l
  /\ forall i dimension,
       l !! i = Some dimension ->
       exists m,
         flattenAzureRmScheduledQueryRulesLogDimension (Some l) !! i
         = Some (VMap m)
         /\ index m "name" = pointer VString (insights.Name dimension)
         /\ index m "operator" = pointer VString (insights.Operator dimension)
         /\ index m "values" = pointer VStrings (insights.Values dimension)
         /\ length m
            = (length (option_list (insights.Name dimension))
               + length (option_list (insights.Operator dimension))
               + length (option_list (insights.Values dimension)))%nat.
Proof.
  rewrite flatten_dimension_map. split; [by rewrite length_fmap|].
  intros i [[name|] [operator|] [values|]] Hi;
    rewrite list_lookup_fmap, Hi; eexists; (split; [reflexivity|]);
    by repeat split.
Qed.

Lemma flattenCriteriaItem_cases (criteria : insights.Criteria) :
  flattenCriteriaItem criteria
  = match insights.MetricName criteria with
    | Some metric_name =>
        Ok (VMap
              [ ("dimension",
                  VList (flattenAzureRmScheduledQueryRulesLogDimension
                           (insights.Dimensions criteria)));
                ("metric_name", VString metric_name) ])
    | None => Panic nil_dereference
    end.
Proof.
  unfold flattenCriteriaItem. by destruct (insights.MetricName criteria).
Qed.

(** X2: the criteria flattener returns exactly when every criterion has its
    metric name, and then with one entry per criterion, in the order of the
    payload, each holding the metric name and the flattened dimensions; as
    soon as one criterion lacks its metric name it panics with a nil
    dereference, whatever the other criteria hold. *)
Theorem flatten_criteria_entries (l : list insights.Criteria) :
  (Forall named l ->
   exists r,
     flattenAzureRmScheduledQueryRulesLogCriteria (Some l) = Ok r
     /\ Forall2
          (fun criteria v =>
             exists metric_name,
               insights.MetricName criteria = Some metric_name
               /\ v = VMap
                    [ ("dimension",
                        VList (flattenAzureRmScheduledQueryRulesLogDimension
                                 (insights.Dimensions criteria)));
                      ("metric_name", VString metric_name) ])
          l r)
  /\ (Exists (fun criteria => insights.MetricName criteria = None) l ->
      flattenAzureRmScheduledQueryRulesLogCriteria (Some l)
      = Panic nil_dereference).
Proof.
  unfold flattenAzureRmScheduledQueryRulesLogCriteria.
  assert (forall acc,
            (Forall named l ->
             exists r,
               for_range
                 (fun result criteria =>
                    v ← flattenCriteriaItem criteria; Ok (result ++ [v]))
                 acc l = Ok (acc ++ r)
               /\ Forall2
                    (fun criteria v =>
                       exists metric_name,
                         insights.MetricName criteria = Some metric_name
                         /\ v = VMap
                              [ ("dimension",
                                  VList
                                    (flattenAzureRmScheduledQueryRulesLogDimension
                                       (insights.Dimensions criteria)));
                                ("metric_name", VString metric_name) ])
                    l r)
            /\ (Exists (fun criteria => insights.MetricName criteria = None) l ->
                for_range
                  (fun result criteria =>
                     v ← flattenCriteriaItem criteria; Ok (result ++ [v]))
                  acc l = Panic nil_dereference)) as H.
  { induction l as [|criteria l IH]; intros acc.
    - split.
      + intros _. exists []. by rewrite app_nil_r.
      + intros Hl. by apply Exists_nil in Hl.
    - cbn [for_range]. rewrite (flattenCriteriaItem_cases criteria).
      destruct (insights.MetricName criteria) as [metric_name|] eqn:Hname.
      + cbn [mbind Result_mbind Result_bind].
        match goal with
        | |- context [for_range _ (acc ++ [?x]) l] => set (v := x)
        end.
        split.
        * intros Hl. apply Forall_cons in Hl as [_ Hl].
          destruct (proj1 (IH (acc ++ [v])) Hl) as (r & Hr & Hall).
          exists (v :: r). split.
          { rewrite Hr. by rewrite <- app_assoc. }
          constructor; [by exists metric_name|done].
        * intros Hl. apply Exists_cons in Hl as [Hl|Hl]; [congruence|].
          by apply IH.
      + cbn [mbind Result_mbind Result_bind]. split; [|done].
        intros Hl. apply Forall_cons in Hl as [[x Hx] _]. congruence. }
  apply (H []).
Qed.

(** ** The expander on whatever it accepts *)

(** A loop that appends one converted element per pass: when it returns,
    every element had a reading, and the result is the start followed by
    the converted readings. *)
Lemma for_range_snoc_inv {A B C : Type} (body : list C -> A -> Result (list C))
  (read : A -> option B) (f : B -> C) (l : list A) :
  (forall acc x r,
     body acc x = Ok r -> exists b, read x = Some b /\ r = acc ++ [f b]) ->
  forall acc r,
    for_range body acc l = Ok r ->
    exists bs, mapM read l = Some bs /\ r = acc ++ (f <$> bs).
Proof.
  intros Hbody. induction l as [|x l IH]; intros acc r Hr.
  - exists []. injection Hr as <-. by rewrite app_nil_r.
  - cbn [for_range] in Hr. destruct (body acc x) as [r'|msg] eqn:Hx;
      [|discriminate Hr].
    destruct (Hbody _ _ _ Hx) as (b & Hb & ->).
    destruct (IH _ _ Hr) as (bs & Hbs & ->).
    exists (b :: bs). cbn [mapM]. rewrite Hb. simpl. rewrite Hbs.
    split; [done|]. by rewrite <- app_assoc.
Qed.

Lemma fmap_id_list {A : Type} (l : list A) : (fun x => x) <$> l = l.
Proof. induction l as [|x l IH]; [done|]. rewrite fmap_cons. by f_equal. Qed.

Lemma ExpandStringSlice_inv (l : list value) (vs : list string) :
  ExpandStringSlice l = Ok vs -> mapM stringOf l = Some vs.
Proof.
  unfold ExpandStringSlice. intros H.
  apply (for_range_snoc_inv _ stringOf (fun s => s)) in H
    as (bs & Hbs & ->).
  - by rewrite app_nil_l, fmap_id_list.
  - intros acc x r Hx. destruct x; try discriminate Hx.
    injection Hx as <-. by eexists.
Qed.

Lemma expandDimension_inv (acc : list insights.Dimension) (v : value)
  (r : list insights.Dimension) :
  expandDimension acc v = Ok r ->
  exists e, readDimension v = Some e /\ r = acc ++ [dimensionOf e].
Proof.
  unfold expandDimension. destruct v as [| | | | | |m| ]; try discriminate.
  cbn [assert_map mbind Result_mbind Result_bind].
  destruct (index m "name") as [| | |name| | | | ] eqn:Hname;
    try discriminate.
  destruct (index m "operator") as [| | |operator| | | | ] eqn:Hoperator;
    try discriminate.
  destruct (index m "values") as [| | | | |values| | ] eqn:Hvalues;
    try discriminate.
  cbn [assert_string assert_list mbind Result_mbind Result_bind].
  destruct (ExpandStringSlice values) as [vs|msg] eqn:Hvs; [|discriminate].
  apply ExpandStringSlice_inv in Hvs. intros [= <-].
  exists (name, operator, vs). split; [|done].
  unfold readDimension. rewrite Hname, Hoperator, Hvalues.
  cbn [stringOf stringsOf mbind option_bind]. by rewrite Hvs.
Qed.

Lemma expandCriterion_inv (acc : list insights.Criteria) (v : value)
  (r : list insights.Criteria) :
  expandCriterion acc v = Ok r ->
  exists c, readCriterion v = Some c /\ r = acc ++ [criterionOf c].
Proof.
  unfold expandCriterion. destruct v as [| | | | | |m| ]; try discriminate.
  cbn [assert_map mbind Result_mbind Result_bind].
  destruct (index m "dimension") as [| | | | | | |ds] eqn:Hds;
    try discriminate.
  cbn [assert_Set mbind Result_mbind Result_bind].
  destruct (for_range expandDimension [] ds) as [dimensions|msg] eqn:Hdims;
    [|discriminate].
  apply (for_range_snoc_inv _ readDimension dimensionOf) in Hdims
    as (es & Hes & ->); [|apply expandDimension_inv].
  destruct (index m "metric_name") as [| | |name| | | | ] eqn:Hname;
    try discriminate.
  intros [= <-]. exists (name, es). split; [|done].
  unfold readCriterion, readDimensions. rewrite Hds, Hname.
  cbn [stringOf elementsOf mbind option_bind]. by rewrite Hes.
Qed.

Lemma expand_criteria_inv (l : list value)
  (p : option (list insights.Criteria)) :
  expandMonitorScheduledQueryRulesLogCriteria l = Ok p ->
  exists cs, readCriteria (VSet l) = Some cs /\ p = Some (criterionOf <$> cs).
Proof.
  unfold expandMonitorScheduledQueryRulesLogCriteria.
  destruct (for_range expandCriterion [] l) as [criteria|msg] eqn:Hl;
    [|discriminate].
  apply (for_range_snoc_inv _ readCriterion criterionOf) in Hl
    as (cs & Hcs & ->); [|apply expandCriterion_inv].
  intros [= <-]. by exists cs.
Qed.

(** X3: whenever the expander returns, with or without schema validation,
    its payload is never nil and has one criterion per configured one; no
    metric name, dimension list, name, operator or value list in it is nil;
    the flattener accepts it, and flattening gives back the set of entries
    that was configured. *)
Theorem expand_then_flatten (l : list value)
  (p : option (list insights.Criteria)) :
  expandMonitorScheduledQueryRulesLogCriteria l = Ok p ->
  exists criteria r,
    p = Some criteria
    /\ length criteria = length l
    /\ Forall
         (fun c =>
            is_Some (insights.MetricName c)
            /\ exists dimensions,
                 insights.Dimensions c = Some dimensions
                 /\ Forall
                      (fun dimension =>
                         is_Some (insights.Name dimension)
                         /\ is_Some (insights.Operator dimension)
                         /\ is_Some (insights.Values dimension))
                      dimensions)
         criteria
    /\ flattenAzureRmScheduledQueryRulesLogCriteria p = Ok r
    /\ is_Some (criteriaSet (VSet l))
    /\ criteriaSet (VList r) = criteriaSet (VSet l).
Proof.
  intros Hexpand.
  destruct (expand_criteria_inv _ _ Hexpand) as (cs & Hread & ->).
  destruct (flatten_criteria_of cs) as (r & Hflatten & Hback).
  exists (criterionOf <$> cs), r. split; [done|]. split.
  { rewrite length_fmap. unfold readCriteria in Hread.
    cbn [elementsOf mbind option_bind] in Hread.
    by apply length_mapM in Hread. }
  split.
  { apply Forall_fmap, Forall_forall. intros [name es] _. split; [by eexists|].
    eexists. split; [reflexivity|].
    apply Forall_fmap, Forall_forall. intros [[n o] vs] _.
    by repeat split; eexists. }
  split; [done|]. unfold criteriaSet. rewrite Hread, Hback. by split.
Qed.

Lemma expand_then_flatten_witness :
  exists criteria r,
    expandMonitorScheduledQueryRulesLogCriteria unvalidatedCriteria
    = Ok (Some criteria)
    /\ length criteria = 1%nat
    /\ flattenAzureRmScheduledQueryRulesLogCriteria (Some criteria) = Ok r
    /\ criteriaSet (VList r) = criteriaSet (VSet unvalidatedCriteria).
Proof.
  destruct (expand_then_flatten unvalidatedCriteria _ eq_refl)
    as (criteria & r & Hp & Hlength & _ & Hflatten & _ & Hset).
  exists criteria, r. rewrite Hp in Hflatten.
  refine (conj _ (conj Hlength (conj Hflatten Hset))).
  by injection Hp as <-.
Defined.

(** ** What validation adds to the shape *)

Lemma validate_dimension_operator (k : string) (v : value) :
  validateElem (schema.ElemResource dimensionResource) k v = true ->
  forall e, readDimension v = Some e -> e.1.2 = "Include".
Proof.
  destruct v as [| | | | |  |m| ]; try discriminate. simpl. intros H.
  apply andb_prop in H as [_ H]. apply andb_prop in H as [Ho _].
  destruct (index m "operator") as [| | |operator| | | | ] eqn:Hop;
    try discriminate.
  cbn in Ho. destruct (String.eqb_spec operator "Include") as [->|];
    [|discriminate].
  intros [[name operator] values] He.
  destruct (stringOf (index m "name")); [|discriminate].
  cbn in He. destruct (stringsOf (index m "values")); [|discriminate].
  by injection He as _ <- _.
Qed.

(** X4: criteria that pass schema validation have the shape of a set of
    entries and every dimension in them has the operator "Include": a
    configuration with any other operator is rejected before a handler
    runs. *)
Theorem valid_criteria_operators (k : string) (c : value) :
  validate criteriaSchema k c = true ->
  exists cs,
    readCriteria c = Some cs
    /\ Forall (fun criterion =>
                 Forall (fun dimension : DimensionEntry =>
                           dimension.1.2 = "Include")
                   criterion.2) cs.
Proof.
  intros Hvalid.
  destruct (validate_criteria _ _ Hvalid) as (l & cs & -> & Hread & _).
  exists cs. split; [done|].
  unfold validate in Hvalid.
  change (forallb (validateElem (schema.ElemResource criteriaResource) k) l
          && true = true) in Hvalid.
  apply andb_prop in Hvalid as [Hl _].
  unfold readCriteria in Hread. cbn [elementsOf mbind option_bind] in Hread.
  apply mapM_Some in Hread.
  induction Hread as [|v criterion l cs Hv _ IH]; [constructor|].
  cbn [forallb] in Hl. apply andb_prop in Hl as [Hvalidv Hl].
  constructor; [|by apply IH].
  clear IH Hl.
  destruct v as [| | | | |  |m| ]; try discriminate.
  simpl in Hvalidv. apply andb_prop in Hvalidv as [Hdims _].
  destruct (index m "dimension") as [| | | | | | |ds] eqn:Hds;
    try discriminate.
  change (forallb (validateElem (schema.ElemResource dimensionResource)
                     "dimension") ds && true = true) in Hdims.
  apply andb_prop in Hdims as [Hdims _].
  unfold readCriterion, readDimensions in Hv. rewrite Hds in Hv.
  destruct (stringOf (index m "metric_name")) as [name|]; [|discriminate].
  cbn [elementsOf mbind option_bind] in Hv.
  destruct (mapM readDimension ds) as [es|] eqn:Hes; [|discriminate].
  injection Hv as <-. cbn [snd].
  apply mapM_Some in Hes. clear Hds.
  induction Hes as [|x e ds es Hx _ IH]; [constructor|].
  cbn [forallb] in Hdims. apply andb_prop in Hdims as [Hx' Hds'].
  constructor; [|by apply IH].
  by apply (validate_dimension_operator _ _ Hx').
Qed.

Lemma valid_criteria_operators_witness :
  exists cs,
    readCriteria exampleCriteria = Some cs
    /\ Forall (fun criterion =>
                 Forall (fun dimension : DimensionEntry =>
                           dimension.1.2 = "Include")
                   criterion.2) cs.
Proof. exact (valid_criteria_operators "criteria" exampleCriteria eq_refl). Defined.

(** X5: the action the expander builds for a resource always carries the
    log-to-metric discriminator and a criteria list that is not nil, with
    one criterion per element of the configured set; for a resource with no
    criteria configured the list is empty, and the expander does not
    panic. *)
Theorem expand_action_shape (d0 : ResourceData.t) :
  (ResourceData.fields d0 !! "criteria" = None ->
   expandMonitorScheduledQueryRulesLogToMetricAction d0
   = Ok {| insights.Criteria_ := Some [];
           insights.OdataType_ :=
             insights.OdataTypeMicrosoftWindowsAzureManagementMonitoringAlertsModelsMicrosoftAppInsightsNexusDataContractsResourcesScheduledQueryRulesLogToMetricAction |})
  /\ (forall action,
        expandMonitorScheduledQueryRulesLogToMetricAction d0 = Ok action ->
        insights.OdataType_ action
        = insights.OdataTypeMicrosoftWindowsAzureManagementMonitoringAlertsModelsMicrosoftAppInsightsNexusDataContractsResourcesScheduledQueryRulesLogToMetricAction
        /\ exists l criteria,
             ResourceData.Get d0 "criteria" = VSet l
             /\ insights.Criteria_ action = Some criteria
             /\ length criteria = length l).
Proof.
  unfold expandMonitorScheduledQueryRulesLogToMetricAction. split.
  - intros Hunset. unfold ResourceData.Get. by rewrite Hunset.
  - intros action.
    destruct (ResourceData.Get d0 "criteria") as [| | | | | | |l];
      try discriminate.
    cbn [assert_Set mbind Result_mbind Result_bind].
    destruct (expandMonitorScheduledQueryRulesLogCriteria l) as [p|msg] eqn:Hp;
      [|discriminate].
    intros [= <-]. split; [done|].
    destruct (expand_criteria_inv _ _ Hp) as (cs & Hread & ->).
    exists l, (criterionOf <$> cs). split; [done|]. split; [done|].
    rewrite length_fmap. unfold readCriteria in Hread.
    cbn [elementsOf mbind option_bind] in Hread.
    by apply length_mapM in Hread.
Qed.

Lemma expand_action_shape_witness :
  expandMonitorScheduledQueryRulesLogToMetricAction (identified exampleID)
  = Ok {| insights.Criteria_ := Some [];
          insights.OdataType_ :=
            insights.OdataTypeMicrosoftWindowsAzureManagementMonitoringAlertsModelsMicrosoftAppInsightsNexusDataContractsResourcesScheduledQueryRulesLogToMetricAction |}.
Proof. exact (proj1 (expand_action_shape (identified exampleID)) eq_refl). Defined.

(** ** The handlers on a malformed identifier *)

Lemma read_malformed_run {W : Type} (meta : Meta W) (s : St W) (err : error) :
  ParseAzureResourceID meta (ResourceData.Id (d s)) = inl err ->
  run (resourceArmMonitorScheduledQueryRulesLogRead meta) s
  = (Returned (Some err), s).
Proof.
  intros Hparse. unfold run, resourceArmMonitorScheduledQueryRulesLogRead.
  by rewrite getData_bind, Hparse.
Qed.

Lemma delete_malformed_run {W : Type} (meta : Meta W) (s : St W)
  (err : error) :
  ParseAzureResourceID meta (ResourceData.Id (d s)) = inl err ->
  run (resourceArmMonitorScheduledQueryRulesLogDelete meta) s
  = (Returned (Some err), s).
Proof.
  intros Hparse. unfold run, resourceArmMonitorScheduledQueryRulesLogDelete.
  by rewrite getData_bind, Hparse.
Qed.

(** X6: when the stored identifier does not parse, the read handler and
    the delete handler return the parser's error as it is, issue no call to
    the provider and leave the resource data as they were. *)
Theorem malformed_identifier {W : Type} (meta : Meta W) (s : St W)
  (err : error) :
  ParseAzureResourceID meta (ResourceData.Id (d s)) = inl err ->
  run (resourceArmMonitorScheduledQueryRulesLogRead meta) s
  = (Returned (Some err), s)
  /\ run (resourceArmMonitorScheduledQueryRulesLogDelete meta) s
     = (Returned (Some err), s).
Proof.
  intros Hparse.
  split; [by apply read_malformed_run|by apply delete_malformed_run].
Qed.

Lemma malformed_identifier_witness :
  run (resourceArmMonitorScheduledQueryRulesLogRead (memoryMeta false None))
    (start (identified "r1") ∅)
  = (Returned (Some (ExternalError "Cannot parse Azure ID")),
     start (identified "r1") ∅)
  /\ run (resourceArmMonitorScheduledQueryRulesLogDelete
            (memoryMeta false None))
       (start (identified "r1") ∅)
     = (Returned (Some (ExternalError "Cannot parse Azure ID")),
        start (identified "r1") ∅).
Proof.
  exact (malformed_identifier (memoryMeta false None)
           (start (identified "r1") ∅) _ eq_refl).
Defined.

(** ** The delete handler *)

(** X7: the delete handler never panics, never changes the resource data
    (it does not clear the identifier itself) and issues at most one call,
    a [Delete] for the rule the identifier names; when that call succeeds
    it returns nil. *)
Theorem delete_keeps_resource_data {W : Type} (meta : Meta W) (s : St W) :
  let after := run (resourceArmMonitorScheduledQueryRulesLogDelete meta) s in
  d after.2 = d s
  /\ (exists err, after.1 = Returned err)
  /\ (calls after.2 = calls s
      \/ exists id,
           ParseAzureResourceID meta (ResourceData.Id (d s)) = inr id
           /\ calls after.2
              = calls s ++ [CallDelete (azure.ResourceGroup id)
                              (azure.PathAt id "scheduledqueryrules")])
  /\ (forall id resp w,
        ParseAzureResourceID meta (ResourceData.Id (d s)) = inr id ->
        Delete meta (azure.ResourceGroup id)
          (azure.PathAt id "scheduledqueryrules") (world s)
        = (resp, None, w) ->
        after.1 = Returned None /\ world after.2 = w).
Proof.
  cbv zeta. unfold run, resourceArmMonitorScheduledQueryRulesLogDelete.
  rewrite getData_bind.
  destruct (ParseAzureResourceID meta (ResourceData.Id (d s)))
    as [err|id] eqn:Hparse.
  { rewrite Return_bind || idtac. cbn.
    repeat split; [by eexists|by left|discriminate|discriminate]. }
  rewrite bind_run. unfold clientDelete.
  destruct (Delete meta (azure.ResourceGroup id)
              (azure.PathAt id "scheduledqueryrules") (world s))
    as [[resp err] w] eqn:Hdelete.
  destruct err as [err|];
    [destruct (response.WasNotFound (autorest.Response_ resp))|];
    cbn; (split; [done|]); (split; [by eexists|]);
    (split; [right; by exists id|]);
    intros id' resp' w' [= <-]; rewrite Hdelete; by intros [= <- <-].
Qed.

(** ** More on the read handler *)

(** Past the action of [rule] in a read that succeeds: the action is a
    log-to-metric action, its criteria were flattened and the field writer
    took them. *)
Ltac through_action rule s :=
  destruct (insights.Action rule) as [| | |?action|?action];
    try (rewrite Return_bind; intros ?H; discriminate);
  rewrite !bind_assoc;
  destruct (flattenAzureRmScheduledQueryRulesLogCriteria _) as [?cr|?msg];
    [rewrite lift_Ok_bind|rewrite lift_Panic_bind; intros ?H; discriminate];
  rewrite !bind_assoc;
  apply step_any; [proceeding|]; clear s; intros [?err|] s;
    [rewrite Return_bind; intros ?H; discriminate|rewrite ret_bind].

Section ReadMore.

Context {W : Type} (meta : Meta W).

Lemma keeps_Set_identified (key : string) (v : value) (i : string)
  (n : bool) (w : W) (cs : list Call) :
  keeps (identifiedBy i n w cs) (Set_ meta key v).
Proof.
  intros s Hs. unfold Set_. by destruct (WriteField meta key v).
Qed.

Lemma identifiedBy_record (c : Call) (w : W) (s : St W) :
  identifiedBy (ResourceData.id (d s)) (ResourceData.isNewResource (d s)) w
    (calls s ++ [c]) (record c w s).
Proof. done. Qed.

(** The second half of the read handler writes fields only. *)
Lemma setFromResponse_identified (name resourceGroup : string)
  (resp : insights.LogSearchRuleResource) (i : string) (n : bool) (w : W)
  (cs : list Call) :
  keeps (identifiedBy i n w cs) (setFromResponse meta name resourceGroup resp).
Proof.
  unfold setFromResponse, tagsFlattenAndSet.
  follow (@keeps_ret) (@keeps_bind) (@keeps_when)
    ltac:(first [ apply keeps_Return
                | apply keeps_deref_bind; intros ? ?
                | apply keeps_lift
                | apply keeps_Set_identified ]).
Qed.

Lemma read_found_identified (s : St W) (id : azure.ResourceID)
  (resp : insights.LogSearchRuleResource) (w : W) :
  ParseAzureResourceID meta (ResourceData.Id (d s)) = inr id ->
  Get meta (azure.ResourceGroup id) (azure.PathAt id "scheduledqueryrules")
    (world s) = (resp, None, w) ->
  identifiedBy (ResourceData.id (d s)) (ResourceData.isNewResource (d s)) w
    (calls s ++ [CallGet (azure.ResourceGroup id)
                   (azure.PathAt id "scheduledqueryrules")])
    (run (resourceArmMonitorScheduledQueryRulesLogRead meta) s).2.
Proof.
  intros Hparse Hget.
  rewrite run_outcome, (read_found meta s id resp w Hparse Hget).
  apply setFromResponse_identified, identifiedBy_record.
Qed.

(** X8: a read whose [Get] succeeds issues no other call and leaves the
    identifier and the new-resource mark of the resource data alone,
    however it ends: it only writes fields. *)
Theorem read_found_single_call (s : St W) (id : azure.ResourceID)
  (resp : insights.LogSearchRuleResource) (w : W) :
  let resourceGroup := azure.ResourceGroup id in
  let name := azure.PathAt id "scheduledqueryrules" in
  let after := run (resourceArmMonitorScheduledQueryRulesLogRead meta) s in
  ParseAzureResourceID meta (ResourceData.Id (d s)) = inr id ->
  Get meta resourceGroup name (world s) = (resp, None, w) ->
  ResourceData.Id (d after.2) = ResourceData.Id (d s)
  /\ ResourceData.IsNewResource (d after.2) = ResourceData.IsNewResource (d s)
  /\ world after.2 = w
  /\ calls after.2 = calls s ++ [CallGet resourceGroup name].
Proof.
  intros resourceGroup name after Hparse Hget.
  exact (read_found_identified s id resp w Hparse Hget).
Qed.

(** X9: a read whose [Get] succeeds stores the rule name and the resource
    group it parsed from the identifier under [name] and
    [resource_group_name] (when the field writer accepts them), whatever
    the payload holds and however the handler ends. *)
Theorem read_identity_fields (s : St W) (id : azure.ResourceID)
  (resp : insights.LogSearchRuleResource) (w : W) :
  let resourceGroup := azure.ResourceGroup id in
  let name := azure.PathAt id "scheduledqueryrules" in
  let after := run (resourceArmMonitorScheduledQueryRulesLogRead meta) s in
  ParseAzureResourceID meta (ResourceData.Id (d s)) = inr id ->
  Get meta resourceGroup name (world s) = (resp, None, w) ->
  (WriteField meta "name" (VString name) = None ->
   ResourceData.fields (d after.2) !! "name" = Some (VString name))
  /\ (WriteField meta "resource_group_name" (VString resourceGroup) = None ->
      ResourceData.fields (d after.2) !! "resource_group_name"
      = Some (VString resourceGroup)).
Proof.
  intros resourceGroup name after Hparse Hget. subst after.
  rewrite run_outcome, (read_found meta s id resp w Hparse Hget).
  cbn [fst snd]. fold resourceGroup name.
  generalize (record (CallGet resourceGroup name) w s). clear s Hparse Hget.
  intros s. unfold setFromResponse. split; intros Hwrite.
  - apply Set_written; [done|intros ?]. unfold tagsFlattenAndSet. keeping.
  - onward s. apply Set_written; [done|intros ?].
    unfold tagsFlattenAndSet. keeping.
Qed.

(** X10: a rule the provider returns without its properties makes the
    read handler panic with a nil dereference, at the first field it
    reaches through them. *)
Theorem read_without_properties_panics (s : St W) (id : azure.ResourceID)
  (resp : insights.LogSearchRuleResource) (w : W) :
  let resourceGroup := azure.ResourceGroup id in
  let name := azure.PathAt id "scheduledqueryrules" in
  ParseAzureResourceID meta (ResourceData.Id (d s)) = inr id ->
  Get meta resourceGroup name (world s) = (resp, None, w) ->
  insights.LogSearchRule_ resp = None ->
  (run (resourceArmMonitorScheduledQueryRulesLogRead meta) s).1
  = Panicked nil_dereference.
Proof.
  intros resourceGroup name Hparse Hget Hnone.
  rewrite run_outcome, (read_found meta s id resp w Hparse Hget).
  cbn [fst]. fold resourceGroup name.
  generalize (record (CallGet resourceGroup name) w s). clear s Hparse Hget.
  intros s. unfold setFromResponse.
  onward s. onward s. onward s. rewrite Hnone. cbn [deref].
  by rewrite lift_Panic_bind.
Qed.

(** X11: a read whose [Get] succeeds with a rule that has its properties
    returns, with nil or with an error, and does not panic, provided every
    criterion of a log-to-metric action has its metric name. *)
Theorem read_returns_on_named_criteria (s : St W) (id : azure.ResourceID)
  (resp : insights.LogSearchRuleResource) (rule : insights.LogSearchRule)
  (w : W) :
  let resourceGroup := azure.ResourceGroup id in
  let name := azure.PathAt id "scheduledqueryrules" in
  ParseAzureResourceID meta (ResourceData.Id (d s)) = inr id ->
  Get meta resourceGroup name (world s) = (resp, None, w) ->
  insights.LogSearchRule_ resp = Some rule ->
  (forall action criteria,
     insights.Action rule = insights.LogToMetricAction_ action ->
     insights.Criteria_ action = Some criteria -> Forall named criteria) ->
  exists err,
    (run (resourceArmMonitorScheduledQueryRulesLogRead meta) s).1
    = Returned err.
Proof.
  intros resourceGroup name Hparse Hget Hrule Hnamed.
  rewrite run_outcome, (read_found meta s id resp w Hparse Hget).
  cbn [fst]. fold resourceGroup name.
  generalize (record (CallGet resourceGroup name) w s). clear s Hparse Hget.
  intros s. unfold setFromResponse.
  onward s. onward s. onward s. rewrite Hrule. cbn [deref].
  rewrite lift_Ok_bind.
  onward s. onward s. onward s. onward s.
  destruct (insights.Action rule) as [| | |action|action] eqn:Haction;
    try (rewrite Return_bind; by eexists).
  assert (exists r,
            flattenAzureRmScheduledQueryRulesLogCriteria
              (insights.Criteria_ action) = Ok r) as [r ->].
  { destruct (insights.Criteria_ action) as [criteria|] eqn:Hcriteria;
      [|by exists []].
    apply flatten_named_criteria, (Hnamed _ _ eq_refl Hcriteria). }
  rewrite !bind_assoc, lift_Ok_bind.
  apply safe_returns. unfold tagsFlattenAndSet. safely.
Qed.

Lemma when_Some {A} (a : A) (m : M W unit) :
  when (bool_decide (Some a <> None)) m = m.
Proof. reflexivity. Qed.

(** A field written after a nil check holds the payload's value after a
    read that succeeded. *)
Lemma guarded_written (name resourceGroup : string)
  (resp : insights.LogSearchRuleResource) (key : string) (v : value)
  (s : St W) :
  key ∈ guarded ->
  payloadValue meta resp key = Some v ->
  WriteField meta key v = None ->
  outcome (setFromResponse meta name resourceGroup resp s).1
  = Returned None ->
  ResourceData.fields
    (d (setFromResponse meta name resourceGroup resp s).2) !! key = Some v.
Proof.
  intros Hkey Hvalue Hwrite. unfold guarded in Hkey.
  repeat (apply elem_of_cons in Hkey as [->|Hkey]);
    [..|by apply elem_of_nil in Hkey];
    cbn in Hvalue; unfold setFromResponse.
  - destruct (insights.Location resp) as [location|] eqn:Hlocation;
      [|discriminate]. injection Hvalue as <-.
    onward s. onward s. rewrite !bind_assoc. intros _.
    apply Set_written; [done|intros ?]. unfold tagsFlattenAndSet. keeping.
  - destruct (insights.LogSearchRule_ resp) as [rule|] eqn:Hrule;
      [|discriminate]. cbn in Hvalue.
    destruct (insights.LastUpdatedTime rule) as [lastUpdated|] eqn:Hlast;
      [|discriminate]. injection Hvalue as <-.
    onward s. onward s. onward s. cbn [deref]. rewrite lift_Ok_bind.
    rewrite Hlast. rewrite !bind_assoc. intros _.
    apply Set_written; [done|intros ?]. unfold tagsFlattenAndSet. keeping.
  - destruct (insights.LogSearchRule_ resp) as [rule|] eqn:Hrule;
      [|discriminate]. cbn in Hvalue.
    destruct (insights.Schedule_ rule) as [schedule|] eqn:Hschedule;
      [|discriminate]. cbn in Hvalue.
    destruct (insights.FrequencyInMinutes schedule) as [frequency|]
      eqn:Hfrequency; [|discriminate]. injection Hvalue as <-.
    onward s. onward s. onward s. cbn [deref]. rewrite lift_Ok_bind.
    onward s. onward s. onward s. onward s. through_action rule s.
    rewrite Hschedule, Hfrequency, when_Some, !bind_assoc. intros _.
    apply Set_written; [done|intros ?]. unfold tagsFlattenAndSet. keeping.
  - destruct (insights.LogSearchRule_ resp) as [rule|] eqn:Hrule;
      [|discriminate]. cbn in Hvalue.
    destruct (insights.Schedule_ rule) as [schedule|] eqn:Hschedule;
      [|discriminate]. cbn in Hvalue.
    destruct (insights.TimeWindowInMinutes schedule) as [window|]
      eqn:Hwindow; [|discriminate]. injection Hvalue as <-.
    onward s. onward s. onward s. cbn [deref]. rewrite lift_Ok_bind.
    onward s. onward s. onward s. onward s. through_action rule s.
    rewrite Hschedule, Hwindow. onward s.
    rewrite when_Some, !bind_assoc. intros _.
    apply Set_written; [done|intros ?]. unfold tagsFlattenAndSet. keeping.
  - destruct (insights.LogSearchRule_ resp) as [rule|] eqn:Hrule;
      [|discriminate]. cbn in Hvalue.
    destruct (insights.Source_ rule) as [source|] eqn:Hsource;
      [|discriminate]. cbn in Hvalue.
    destruct (insights.AuthorizedResources source) as [resources|]
      eqn:Hresources; [|discriminate]. injection Hvalue as <-.
    onward s. onward s. onward s. cbn [deref]. rewrite lift_Ok_bind.
    onward s. onward s. onward s. onward s. through_action rule s.
    onward s. rewrite Hsource, Hresources, when_Some, !bind_assoc. intros _.
    apply Set_written; [done|intros ?]. unfold tagsFlattenAndSet. keeping.
  - destruct (insights.LogSearchRule_ resp) as [rule|] eqn:Hrule;
      [|discriminate]. cbn in Hvalue.
    destruct (insights.Source_ rule) as [source|] eqn:Hsource;
      [|discriminate]. cbn in Hvalue.
    destruct (insights.DataSourceID source) as [dataSource|]
      eqn:Hdata; [|discriminate]. injection Hvalue as <-.
    onward s. onward s. onward s. cbn [deref]. rewrite lift_Ok_bind.
    onward s. onward s. onward s. onward s. through_action rule s.
    onward s. rewrite Hsource, Hdata. onward s.
    rewrite when_Some, !bind_assoc. intros _.
    apply Set_written; [done|intros ?]. unfold tagsFlattenAndSet. keeping.
  - destruct (insights.LogSearchRule_ resp) as [rule|] eqn:Hrule;
      [|discriminate]. cbn in Hvalue.
    destruct (insights.Source_ rule) as [source|] eqn:Hsource;
      [|discriminate]. cbn in Hvalue.
    destruct (insights.Query source) as [query|]
      eqn:Hquery; [|discriminate]. injection Hvalue as <-.
    onward s. onward s. onward s. cbn [deref]. rewrite lift_Ok_bind.
    onward s. onward s. onward s. onward s. through_action rule s.
    onward s. rewrite Hsource, Hquery. onward s. onward s.
    rewrite when_Some, !bind_assoc. intros _.
    apply Set_written; [done|intros ?]. unfold tagsFlattenAndSet. keeping.
Qed.

(** X12: after a read that succeeded, every field written after a nil
    check that the payload holds ([location], [last_updated_time],
    [frequency], [time_window], [authorized_resources], [data_source_id],
    [query]) is stored with the payload's value (the location normalized,
    the time in RFC 3339, the authorized resources as a list), when the
    field writer accepted it. *)
Theorem read_stores_present_fields (s : St W) (id : azure.ResourceID)
  (resp : insights.LogSearchRuleResource) (w : W) (key : string) (v : value) :
  let resourceGroup := azure.ResourceGroup id in
  let name := azure.PathAt id "scheduledqueryrules" in
  let after := run (resourceArmMonitorScheduledQueryRulesLogRead meta) s in
  ParseAzureResourceID meta (ResourceData.Id (d s)) = inr id ->
  Get meta resourceGroup name (world s) = (resp, None, w) ->
  key ∈ guarded ->
  payloadValue meta resp key = Some v ->
  WriteField meta key v = None ->
  after.1 = Returned None ->
  ResourceData.fields (d after.2) !! key = Some v.
Proof.
  intros resourceGroup name after Hparse Hget. subst after.
  rewrite run_outcome, (read_found meta s id resp w Hparse Hget).
  cbn [fst snd]. apply guarded_written.
Qed.

(** When the field writer refuses the flattened criteria, the second half
    of the read handler returns the error of the writer, wrapped, and has
    written neither the criteria nor any field that comes after them. *)
Lemma criteria_refused (name resourceGroup : string)
  (resp : insights.LogSearchRuleResource) (rule : insights.LogSearchRule)
  (action : insights.LogToMetricAction) (criteria : list value) (e : error)
  (key : string) (v0 : option value) (w : W) (cs : list Call) (s : St W) :
  insights.LogSearchRule_ resp = Some rule ->
  insights.Action rule = insights.LogToMetricAction_ action ->
  flattenAzureRmScheduledQueryRulesLogCriteria (insights.Criteria_ action)
  = Ok criteria ->
  WriteField meta "criteria" (VList criteria) = Some e ->
  key ∈ "criteria" :: afterCriteria ->
  holds key v0 w cs s ->
  exists s',
    setFromResponse meta name resourceGroup resp s
    = (inr (Returned (Some (Errorf "Error setting `criteria`: %+v"
                              [ArgError e]))), s')
    /\ holds key v0 w cs s'.
Proof.
  intros Hrule Haction Hflatten Hwrite Hkey Hs.
  unfold afterCriteria in Hkey.
  repeat (apply elem_of_cons in Hkey as [->|Hkey]);
    [..|by apply elem_of_nil in Hkey];
    unfold setFromResponse.
  all: match goal with
       | Hs : holds ?key _ _ _ _ |- _ =>
           forward (holds key v0 w cs) s Hs;
           forward (holds key v0 w cs) s Hs;
           forward (holds key v0 w cs) s Hs;
           rewrite Hrule; cbn [deref]; rewrite lift_Ok_bind;
           forward (holds key v0 w cs) s Hs;
           forward (holds key v0 w cs) s Hs;
           forward (holds key v0 w cs) s Hs;
           forward (holds key v0 w cs) s Hs
       end.
  all: rewrite Haction, Hflatten, !bind_assoc, lift_Ok_bind, bind_assoc.
  all: rewrite bind_run; unfold Set_ at 1; rewrite Hwrite.
  all: cbv beta iota; rewrite Return_bind; by exists s.
Qed.

(** X13: when the field writer refuses the flattened criteria, the read
    handler returns "Error setting `criteria`" with the writer's error, and
    neither [criteria] nor any of [frequency], [time_window],
    [authorized_resources], [data_source_id], [query], [query_type] and
    [tags] has been written. *)
Theorem read_criteria_refused (s : St W) (id : azure.ResourceID)
  (resp : insights.LogSearchRuleResource) (rule : insights.LogSearchRule)
  (action : insights.LogToMetricAction) (criteria : list value) (e : error)
  (w : W) :
  let resourceGroup := azure.ResourceGroup id in
  let name := azure.PathAt id "scheduledqueryrules" in
  let after := run (resourceArmMonitorScheduledQueryRulesLogRead meta) s in
  ParseAzureResourceID meta (ResourceData.Id (d s)) = inr id ->
  Get meta resourceGroup name (world s) = (resp, None, w) ->
  insights.LogSearchRule_ resp = Some rule ->
  insights.Action rule = insights.LogToMetricAction_ action ->
  flattenAzureRmScheduledQueryRulesLogCriteria (insights.Criteria_ action)
  = Ok criteria ->
  WriteField meta "criteria" (VList criteria) = Some e ->
  after.1 = Returned (Some (Errorf "Error setting `criteria`: %+v"
                              [ArgError e]))
  /\ forall key,
       key ∈ "criteria" :: afterCriteria ->
       ResourceData.fields (d after.2) !! key
       = ResourceData.fields (d s) !! key.
Proof.
  intros resourceGroup name after Hparse Hget Hrule Haction Hflatten Hwrite.
  subst after.
  rewrite run_outcome, (read_found meta s id resp w Hparse Hget).
  cbn [fst snd]. split.
  - destruct (criteria_refused name resourceGroup resp rule action criteria
                e "criteria" _ _ _ _ Hrule Haction Hflatten Hwrite
                ltac:(listed)
                (holds_record "criteria" (CallGet resourceGroup name) w s))
      as (s' & Hrun & _).
    fold resourceGroup name. by rewrite Hrun.
  - intros key Hkey.
    destruct (criteria_refused name resourceGroup resp rule action criteria
                e key _ _ _ _ Hrule Haction Hflatten Hwrite Hkey
                (holds_record key (CallGet resourceGroup name) w s))
      as (s' & Hrun & Hkept & _).
    fold resourceGroup name. by rewrite Hrun.
Qed.

End ReadMore.

(** ** Reads and creates that return nil *)

Section Success.

Context {W : Type} (meta : Meta W).

(** How the read handler ends when [Get] fails. *)
Lemma read_failed_run (s : St W) (id : azure.ResourceID)
  (resp : insights.LogSearchRuleResource) (err : error) (w : W) :
  ParseAzureResourceID meta (ResourceData.Id (d s)) = inr id ->
  Get meta (azure.ResourceGroup id) (azure.PathAt id "scheduledqueryrules")
    (world s) = (resp, Some err, w) ->
  run (resourceArmMonitorScheduledQueryRulesLogRead meta) s
  = if utils.ResponseWasNotFound (insights.Response resp)
    then (Returned None,
          {| d := ResourceData.SetId (d s) "";
             world := w;
             calls := calls s ++ [CallGet (azure.ResourceGroup id)
                                    (azure.PathAt id "scheduledqueryrules")] |})
    else (Returned (Some (Errorf
            "Error getting scheduled query rule %q (resource group %q): %+v"
            [ArgString (azure.PathAt id "scheduledqueryrules");
             ArgString (azure.ResourceGroup id); ArgError err])),
          {| d := d s;
             world := w;
             calls := calls s ++ [CallGet (azure.ResourceGroup id)
                                    (azure.PathAt id "scheduledqueryrules")] |}).
Proof.
  intros Hparse Hget.
  unfold run, resourceArmMonitorScheduledQueryRulesLogRead.
  rewrite getData_bind, Hparse, clientGet_bind, Hget. cbn [fst snd].
  destruct (utils.ResponseWasNotFound (insights.Response resp)).
  - by rewrite bind_assoc, SetId_bind, Return_bind.
  - by rewrite Return_bind.
Qed.

Lemma read_returning_nil (s s' : St W) :
  run (resourceArmMonitorScheduledQueryRulesLogRead meta) s
  = (Returned None, s') ->
  exists id,
    ParseAzureResourceID meta (ResourceData.Id (d s)) = inr id
    /\ calls s'
       = calls s ++ [CallGet (azure.ResourceGroup id)
                       (azure.PathAt id "scheduledqueryrules")]
    /\ (ResourceData.Id (d s') = ""
        \/ ResourceData.Id (d s') = ResourceData.Id (d s)).
Proof.
  intros Hrun.
  destruct (ParseAzureResourceID meta (ResourceData.Id (d s)))
    as [err|id] eqn:Hparse.
  { rewrite (read_malformed_run meta s err Hparse) in Hrun.
    discriminate Hrun. }
  exists id. split; [done|].
  destruct (Get meta (azure.ResourceGroup id)
              (azure.PathAt id "scheduledqueryrules") (world s))
    as [[resp [err|]] w] eqn:Hget.
  - rewrite (read_failed_run s id resp err w Hparse Hget) in Hrun.
    destruct (utils.ResponseWasNotFound (insights.Response resp));
      [|discriminate Hrun].
    injection Hrun as <-. split; [done|by left].
  - destruct (read_found_identified meta s id resp w Hparse Hget)
      as (Hid & _ & _ & Hcalls).
    rewrite Hrun in Hid, Hcalls. split; [done|by right].
Qed.

(** X14: a read that returns nil has parsed the identifier and issued
    exactly one call, the [Get] for the rule the identifier names; the
    identifier of the resource data is then either cleared (the rule was
    not found) or the one the read started with. *)
Theorem read_success (s s' : St W) :
  run (resourceArmMonitorScheduledQueryRulesLogRead meta) s
  = (Returned None, s') ->
  exists id,
    ParseAzureResourceID meta (ResourceData.Id (d s)) = inr id
    /\ calls s'
       = calls s ++ [CallGet (azure.ResourceGroup id)
                       (azure.PathAt id "scheduledqueryrules")]
    /\ (ResourceData.Id (d s') = ""
        \/ ResourceData.Id (d s') = ResourceData.Id (d s)).
Proof. apply read_returning_nil. Qed.

(** How the create/update handler goes on once the presence check is
    passed or skipped. *)
Lemma create_update_run (s : St W) (name resourceGroup : string)
  (existing : insights.LogSearchRuleResource) (err : option error) (w : W) :
  configured (d s) = true ->
  ResourceData.Get (d s) "name" = VString name ->
  ResourceData.Get (d s) "resource_group_name" = VString resourceGroup ->
  Get meta resourceGroup name (world s) = (existing, err, w) ->
  exists parameters,
    (ShouldResourcesBeImported meta && ResourceData.IsNewResource (d s)
     = false ->
     run (resourceArmMonitorScheduledQueryRulesLogCreateUpdate meta) s
     = createThenRead meta name resourceGroup parameters s)
    /\ (ShouldResourcesBeImported meta && ResourceData.IsNewResource (d s)
        = true ->
        forall s',
          run (resourceArmMonitorScheduledQueryRulesLogCreateUpdate meta) s
          = (Returned None, s') ->
          createThenRead meta name resourceGroup parameters
            (record (CallGet resourceGroup name) w s)
          = (Returned None, s')).
Proof.
  intros Hconfigured Hname Hgroup Hget.
  destruct (configured_fields (d s) Hconfigured)
    as (name' & resourceGroup' & description & enabled & t & action
        & _ & _ & Hdescription & Henabled & Htags & Haction).
  exists (parametersOf meta (d s) description enabled action t).
  unfold run, resourceArmMonitorScheduledQueryRulesLogCreateUpdate.
  rewrite getData_bind, Hname, Hgroup. cbn [assert_string].
  rewrite !lift_Ok_bind. split; intros ->; unfold when.
  - rewrite ret_bind. by apply create_tail.
  - intros s'. rewrite !bind_assoc, clientGet_bind, Hget. cbn [fst snd].
    rewrite bind_assoc.
    destruct (checkFailed existing err) eqn:Hcheck.
    { unfold checkFailed in Hcheck. destruct err as [e|]; [|discriminate].
      rewrite Hcheck, Return_bind. discriminate. }
    rewrite check_passed by done. rewrite ret_bind.
    destruct (insights.ID existing) as [existingID|]; cycle 1.
    { rewrite ret_bind.
      by rewrite (create_tail meta (d s) name resourceGroup description
                    enabled t action). }
    destruct (String.eqb existingID ""); cbn [negb].
    + rewrite ret_bind.
      by rewrite (create_tail meta (d s) name resourceGroup description
                    enabled t action).
    + rewrite Return_bind. discriminate.
Qed.

Lemma createThenRead_success (name resourceGroup : string)
  (parameters : insights.LogSearchRuleResource) (checked s' : St W) :
  createThenRead meta name resourceGroup parameters checked
  = (Returned None, s') ->
  exists created w read w' readID id,
    CreateOrUpdate meta resourceGroup name parameters (world checked)
    = (created, None, w)
    /\ Get meta resourceGroup name w = (read, None, w')
    /\ insights.ID read = Some readID
    /\ ParseAzureResourceID meta readID = inr id
    /\ calls s'
       = calls checked
         ++ [ CallCreateOrUpdate resourceGroup name parameters;
              CallGet resourceGroup name;
              CallGet (azure.ResourceGroup id)
                (azure.PathAt id "scheduledqueryrules") ]
    /\ (ResourceData.Id (d s') = "" \/ ResourceData.Id (d s') = readID).
Proof.
  unfold createThenRead.
  intros Hrun.
  destruct (CreateOrUpdate meta resourceGroup name parameters (world checked))
    as [[created [err|]] w] eqn:Hcreate; [discriminate|].
  cbn [world record] in Hrun.
  destruct (Get meta resourceGroup name w) as [[read [err|]] w'] eqn:Hget;
    [discriminate|].
  destruct (insights.ID read) as [readID|] eqn:HID; [|discriminate].
  apply read_returning_nil in Hrun as (id & Hparse & Hcalls & Hid).
  exists created, w, read, w', readID, id.
  refine (conj eq_refl (conj Hget (conj HID (conj Hparse (conj _ Hid))))).
  rewrite Hcalls. cbn [calls record]. by rewrite <- !app_assoc.
Qed.

(** X15: a create/update of a configured resource that returns nil has
    issued, after the presence check of a new resource under import
    protection, exactly the create/update call for the configured name and
    resource group, which succeeded, the [Get] for the same rule, which
    succeeded and returned an ID that parses, and the [Get] of the read for
    the rule that returned ID names; the identifier it leaves is that
    returned ID, or empty when the read did not find the rule. *)
Theorem create_update_success (s s' : St W) (name resourceGroup : string) :
  let protected :=
    ShouldResourcesBeImported meta && ResourceData.IsNewResource (d s) in
  let checked :=
    if protected then (Get meta resourceGroup name (world s)).2
    else world s in
  configured (d s) = true ->
  ResourceData.Get (d s) "name" = VString name ->
  ResourceData.Get (d s) "resource_group_name" = VString resourceGroup ->
  run (resourceArmMonitorScheduledQueryRulesLogCreateUpdate meta) s
  = (Returned None, s') ->
  exists parameters created w read w' readID id,
    CreateOrUpdate meta resourceGroup name parameters checked
    = (created, None, w)
    /\ Get meta resourceGroup name w = (read, None, w')
    /\ insights.ID read = Some readID
    /\ ParseAzureResourceID meta readID = inr id
    /\ calls s'
       = calls s
         ++ (if protected then [CallGet resourceGroup name] else [])
         ++ [ CallCreateOrUpdate resourceGroup name parameters;
              CallGet resourceGroup name;
              CallGet (azure.ResourceGroup id)
                (azure.PathAt id "scheduledqueryrules") ]
    /\ (ResourceData.Id (d s') = "" \/ ResourceData.Id (d s') = readID).
Proof.
  intros protected checked Hconfigured Hname Hgroup Hrun.
  destruct (Get meta resourceGroup name (world s)) as [[existing err] w0]
    eqn:Hget.
  destruct (create_update_run s name resourceGroup existing err w0
              Hconfigured Hname Hgroup Hget)
    as (parameters & Hunprotected & Hprotected).
  fold protected in Hunprotected, Hprotected.
  exists parameters. subst checked. destruct protected.
  - apply (Hprotected eq_refl) in Hrun.
    apply createThenRead_success in Hrun.
    destruct Hrun as (created & w & read & w' & readID & id
                      & Hcreate & Hread & HID & Hparse & Hcalls & Hid).
    exists created, w, read, w', readID, id.
    refine (conj Hcreate (conj Hread (conj HID (conj Hparse (conj _ Hid))))).
    rewrite Hcalls. cbn [calls record]. by rewrite <- !app_assoc.
  - rewrite (Hunprotected eq_refl) in Hrun.
    apply createThenRead_success in Hrun.
    destruct Hrun as (created & w & read & w' & readID & id
                      & Hcreate & Hread & HID & Hparse & Hcalls & Hid).
    by exists created, w, read, w', readID, id.
Qed.


End Success.

(** ** The further properties on concrete inputs *)

Lemma flatten_dimension_entries_witness :
  exists m,
    flattenAzureRmScheduledQueryRulesLogDimension
      (Some [ {| insights.Name := Some "host";
                 insights.Operator := None;
                 insights.Values := Some ["a"; "b"] |} ]) !! 0%nat
    = Some (VMap m)
    /\ index m "name" = VString "host"
    /\ index m "operator" = VNil
    /\ index m "values" = VStrings ["a"; "b"]
    /\ length m = 2%nat.
Proof.
  exact (proj2 (flatten_dimension_entries
                  [ {| insights.Name := Some "host";
                       insights.Operator := None;
                       insights.Values := Some ["a"; "b"] |} ])
           0%nat _ eq_refl).
Defined.

Lemma flatten_criteria_entries_witness :
  (exists r,
     flattenAzureRmScheduledQueryRulesLogCriteria (Some namedCriteria) = Ok r
     /\ length r = 1%nat)
  /\ flattenAzureRmScheduledQueryRulesLogCriteria
       (Some (namedCriteria ++ namelessCriteria))
     = Panic nil_dereference.
Proof.
  split.
  - destruct (proj1 (flatten_criteria_entries namedCriteria))
      as (r & Hr & Hall).
    { repeat constructor. by eexists. }
    exists r. split; [exact Hr|].
    apply Forall2_length in Hall. by rewrite <- Hall.
  - apply (proj2 (flatten_criteria_entries
                    (namedCriteria ++ namelessCriteria))).
    apply Exists_cons_tl, Exists_cons_hd. reflexivity.
Defined.

Lemma delete_keeps_resource_data_witness :
  let after :=
    run (resourceArmMonitorScheduledQueryRulesLogDelete
           (memoryMeta false None))
      (start (identified exampleID)
         (remote (exampleResource (exampleRule (logToMetric None))))) in
  d after.2 = identified exampleID
  /\ after.1 = Returned None
  /\ world after.2 = ∅.
Proof.
  assert (Delete (memoryMeta false None) "rg1" "r1"
            (remote (exampleResource (exampleRule (logToMetric None))))
          = (answer 200, None, ∅)) as Hdelete by (vm_compute; reflexivity).
  destruct (delete_keeps_resource_data (memoryMeta false None)
              (start (identified exampleID)
                 (remote (exampleResource (exampleRule (logToMetric None))))))
    as (Hdata & _ & _ & Hsuccess).
  destruct (Hsuccess _ _ _ eq_refl Hdelete) as [Hnil Hworld].
  exact (conj Hdata (conj Hnil Hworld)).
Defined.

Lemma read_found_single_call_witness :
  let after :=
    run (resourceArmMonitorScheduledQueryRulesLogRead (memoryMeta false None))
      (start (identified exampleID) (remote sourcedResource)) in
  ResourceData.Id (d after.2) = exampleID
  /\ ResourceData.IsNewResource (d after.2) = false
  /\ world after.2 = remote sourcedResource
  /\ calls after.2 = [CallGet "rg1" "r1"].
Proof.
  exact (read_found_single_call (memoryMeta false None)
           (start (identified exampleID) (remote sourcedResource))
           _ _ _ eq_refl eq_refl).
Defined.

Lemma read_identity_fields_witness :
  let after :=
    run (resourceArmMonitorScheduledQueryRulesLogRead (memoryMeta false None))
      (start (identified exampleID) (remote sourcedResource)) in
  ResourceData.fields (d after.2) !! "name" = Some (VString "r1")
  /\ ResourceData.fields (d after.2) !! "resource_group_name"
     = Some (VString "rg1").
Proof.
  destruct (read_identity_fields (memoryMeta false None)
              (start (identified exampleID) (remote sourcedResource))
              _ _ _ eq_refl eq_refl) as [Hname Hgroup].
  exact (conj (Hname eq_refl) (Hgroup eq_refl)).
Defined.

Lemma read_without_properties_panics_witness :
  (run (resourceArmMonitorScheduledQueryRulesLogRead (memoryMeta false None))
     (start (identified exampleID) (remote (noRule 200)))).1
  = Panicked nil_dereference.
Proof.
  exact (read_without_properties_panics (memoryMeta false None)
           (start (identified exampleID) (remote (noRule 200)))
           _ _ _ eq_refl eq_refl eq_refl).
Defined.

Lemma read_returns_on_named_criteria_witness :
  exists err,
    (run (resourceArmMonitorScheduledQueryRulesLogRead
            (memoryMeta false None))
       (start (identified exampleID)
          (remote (exampleResource
                     (exampleRule (logToMetric (Some namedCriteria))))))).1
    = Returned err.
Proof.
  refine (read_returns_on_named_criteria (memoryMeta false None)
            (start (identified exampleID)
               (remote (exampleResource
                          (exampleRule (logToMetric (Some namedCriteria))))))
            _ _ _ _ eq_refl eq_refl eq_refl _).
  intros action criteria [= <-] [= <-]. repeat constructor. by eexists.
Defined.

Lemma read_stores_present_fields_witness :
  let after :=
    run (resourceArmMonitorScheduledQueryRulesLogRead (memoryMeta false None))
      (start (identified exampleID) (remote sourcedResource)) in
  ResourceData.fields (d after.2) !! "location" = Some (VString "westus")
  /\ ResourceData.fields (d after.2) !! "data_source_id"
     = Some (VString "/subscriptions/0/workspaces/w1").
Proof.
  split.
  - apply (read_stores_present_fields (memoryMeta false None)
             (start (identified exampleID) (remote sourcedResource))
             _ sourcedResource (remote sourcedResource) "location"
             (VString "westus") eq_refl eq_refl);
      [listed|reflexivity|reflexivity|reflexivity].
  - apply (read_stores_present_fields (memoryMeta false None)
             (start (identified exampleID) (remote sourcedResource))
             _ sourcedResource (remote sourcedResource) "data_source_id"
             (VString "/subscriptions/0/workspaces/w1") eq_refl eq_refl);
      [listed|reflexivity|reflexivity|reflexivity].
Defined.

Lemma read_criteria_refused_witness :
  let after :=
    run (resourceArmMonitorScheduledQueryRulesLogRead
           (refusing "criteria" (memoryMeta false None)))
      (start (identified exampleID) (remote sourcedResource)) in
  after.1 = Returned (Some (Errorf "Error setting `criteria`: %+v"
                              [ArgError (ExternalError "field refused")]))
  /\ ResourceData.fields (d after.2) !! "criteria" = None
  /\ ResourceData.fields (d after.2) !! "query_type" = None
  /\ ResourceData.fields (d after.2) !! "tags" = None.
Proof.
  destruct (read_criteria_refused
              (refusing "criteria" (memoryMeta false None))
              (start (identified exampleID) (remote sourcedResource))
              _ sourcedResource _ _ [] (ExternalError "field refused")
              (remote sourcedResource)
              eq_refl eq_refl eq_refl eq_refl eq_refl eq_refl)
    as [Herror Hkept].
  refine (conj Herror (conj _ (conj _ _))).
  - apply (Hkept "criteria"). listed.
  - apply (Hkept "query_type"). unfold afterCriteria. listed.
  - apply (Hkept "tags"). unfold afterCriteria. listed.
Defined.

Lemma read_success_witness :
  exists id,
    ParseAzureResourceID (memoryMeta false None) exampleID = inr id
    /\ calls (run (resourceArmMonitorScheduledQueryRulesLogRead
                     (memoryMeta false None))
                (start (identified exampleID) ∅)).2
       = [CallGet (azure.ResourceGroup id)
            (azure.PathAt id "scheduledqueryrules")]
    /\ (ResourceData.Id
          (d (run (resourceArmMonitorScheduledQueryRulesLogRead
                     (memoryMeta false None))
                (start (identified exampleID) ∅)).2) = ""
        \/ ResourceData.Id
             (d (run (resourceArmMonitorScheduledQueryRulesLogRead
                        (memoryMeta false None))
                   (start (identified exampleID) ∅)).2) = exampleID).
Proof.
  apply (read_success (memoryMeta false None)
           (start (identified exampleID) ∅)).
  vm_compute. reflexivity.
Defined.

Lemma create_update_success_witness :
  let after :=
    run (resourceArmMonitorScheduledQueryRulesLogCreateUpdate
           (memoryMeta true None)) (start exampleConfig ∅) in
  exists parameters created w read w' readID id,
    CreateOrUpdate (memoryMeta true None) "rg1" "r1" parameters ∅
    = (created, None, w)
    /\ Get (memoryMeta true None) "rg1" "r1" w = (read, None, w')
    /\ insights.ID read = Some readID
    /\ ParseAzureResourceID (memoryMeta true None) readID = inr id
    /\ calls after.2
       = [ CallGet "rg1" "r1";
           CallCreateOrUpdate "rg1" "r1" parameters;
           CallGet "rg1" "r1";
           CallGet (azure.ResourceGroup id)
             (azure.PathAt id "scheduledqueryrules") ]
    /\ (ResourceData.Id (d after.2) = ""
        \/ ResourceData.Id (d after.2) = readID).
Proof.
  intros after.
  assert (Hrun :
    run (resourceArmMonitorScheduledQueryRulesLogCreateUpdate
           (memoryMeta true None)) (start exampleConfig ∅)
    = (Returned None, after.2)) by (vm_compute; reflexivity).
  exact (create_update_success (memoryMeta true None)
           (start exampleConfig ∅) after.2 "r1" "rg1"
           eq_refl eq_refl eq_refl Hrun).
Defined.

